(** * generate_wav.py: the WAV container written around synthesized speech

    A shallow embedding of [main/generate_wav.py] and the properties its
    specification states about it.  The script posts a text to a speech
    service, decodes the base64 payload of the answer and writes the PCM
    bytes behind a 44-byte RIFF/WAVE header.

    Python integers are unbounded, so they are [Z]; [bytes] values are
    [list byte]; the file system is a finite map from paths to contents.
    Exceptions are values of [exn]; a computation is a function from the
    world to a result-or-exception and the world it leaves behind.
    The diagnostics that the script prints are left out: writing to
    standard output is taken to succeed, so no statement below is about
    a run in which a print raises. *)

From Stdlib Require Import ZArith List Bool Lia.
From Stdlib Require Import Strings.Byte.
From stdpp Require Import gmap strings list fin_maps.
Import ListNotations.
Local Open Scope Z_scope.

(** ** Exceptions *)

Inductive exn : Type :=
| RequestException   (* requests.post: connection error, timeout, ... *)
| JSONDecodeError    (* response.json() on a body that is not JSON *)
| TypeError
| KeyError
| ValueError         (* write on a closed file *)
| BinasciiError      (* base64.b64decode on malformed input *)
| StructError        (* struct.error: value out of range for the format *)
| OSError.           (* open or write refused by the operating system *)

(** ** Bytes and [struct.pack] *)

#[global] Instance byte_eq_dec : EqDecision byte := Byte.byte_eq_dec.

(** A bytes literal such as [b'RIFF']. *)
Definition bytes_lit (s : string) : list byte := String.list_byte_of_string s.

(** The byte whose value is [z mod 256]. *)
Definition byte_of_Z (z : Z) : byte :=
  match Byte.of_N (Z.to_N (z mod 256)) with
  | Some b => b
  | None => x00
  end.

Definition Z_of_byte (b : byte) : Z := Z.of_N (Byte.to_N b).

(** The [n] low-order bytes of [v], least significant first: the byte
    order that the [<] prefix of a [struct] format selects. *)
Fixpoint le_bytes (n : nat) (v : Z) : list byte :=
  match n with
  | O => []
  | S n' => byte_of_Z (Z.land v 255) :: le_bytes n' (Z.shiftr v 8)
  end.

(** [struct.pack('<I', v)]: four bytes, and [struct.error] unless
    [0 <= v <= 4294967295]. *)
Definition struct_pack_I (v : Z) : exn + list byte :=
  if (0 <=? v) && (v <=? 4294967295) then inr (le_bytes 4 v)
  else inl StructError.

(** [struct.pack('<H', v)]: two bytes, and [struct.error] unless
    [0 <= v <= 65535]. *)
Definition struct_pack_H (v : Z) : exn + list byte :=
  if (0 <=? v) && (v <=? 65535) then inr (le_bytes 2 v)
  else inl StructError.

(** ** The world: files, open handles, and the calls made so far *)

Inductive event : Type :=
| EvPost                    (* requests.post *)
| EvJson                    (* response.json() *)
| EvB64decode               (* base64.b64decode *)
| EvOpen (path : string)    (* open(path, 'wb') *)
| EvWrite (path : string)   (* f.write *)
| EvClose (path : string).  (* leaving the with block *)

Record world : Type := World {
  fs : gmap string (list byte);   (* path -> contents of the file there *)
  open_files : list string;       (* one entry per handle that is open *)
  unwritable : gset string;       (* paths that open(.., 'wb') refuses *)
  wr_budget : option nat;         (* writes the disk still accepts;
                                     None: no limit *)
  trace : list event              (* calls made, most recent first *)
}.

Definition log (e : event) (w : world) : world :=
  World (fs w) (open_files w) (unwritable w) (wr_budget w) (e :: trace w).

(** ** Computations that may raise *)

Definition M (A : Type) : Type := world -> (exn + A) * world.

Definition ret {A} (a : A) : M A := fun w => (inr a, w).
Definition raise {A} (e : exn) : M A := fun w => (inl e, w).
Definition bind {A B} (m : M A) (k : A -> M B) : M B :=
  fun w => match m w with
           | (inr a, w') => k a w'
           | (inl e, w') => (inl e, w')
           end.
(** A pure call that returns or raises. *)
Definition lift {A} (r : exn + A) : M A := fun w => (r, w).

Declare Scope py_scope.
Delimit Scope py_scope with py.
Notation "x <- m ;; k" := (bind m (fun x => k))
  (at level 100, m at next level, k at level 200, right associativity) : py_scope.
Notation "m ;; k" := (bind m (fun _ => k))
  (at level 100, k at level 200, right associativity) : py_scope.
Local Open Scope py_scope.

(** ** Files *)

(** A file object is identified by the path it was opened on. *)
Definition handle : Type := string.

Fixpoint remove_first (p : string) (l : list string) : list string :=
  match l with
  | [] => []
  | q :: l' => if String.eqb p q then l' else q :: remove_first p l'
  end.

(** [open(path, 'wb')]: creates the file or truncates it to length zero. *)
Definition py_open (path : string) : M handle :=
  fun w =>
    if bool_decide (path ∈ unwritable w) then (inl OSError, log (EvOpen path) w)
    else (inr path,
          World (<[path := []]> (fs w)) (path :: open_files w)
                (unwritable w) (wr_budget w) (EvOpen path :: trace w)).

(** [f.write(data)]: appends at the end of what was written so far.
    Buffering is not modelled: bytes reach the file at the write, and a
    disk that refuses does so at a write.  The budget is used to tell
    the runs that return from those that raise; what a refused write
    leaves in the file depends on buffering and no statement relies on
    it. *)
Definition f_write (f : handle) (data : list byte) : M unit :=
  fun w =>
    if negb (existsb (String.eqb f) (open_files w)) then (inl ValueError, w)
    else match wr_budget w with
         | Some O => (inl OSError, log (EvWrite f) w)
         | b => (inr tt,
                 World (<[f := default [] (fs w !! f) ++ data]> (fs w))
                       (open_files w) (unwritable w) (Nat.pred <$> b)
                       (EvWrite f :: trace w))
         end.

Definition f_close (f : handle) : M unit :=
  fun w => (inr tt,
            World (fs w) (remove_first f (open_files w)) (unwritable w)
                  (wr_budget w) (EvClose f :: trace w)).

(** [with open(path, 'wb') as f: body]: the handle is closed when the
    body returns and when it raises; the exception then propagates. *)
Definition with_open {A} (path : string) (body : handle -> M A) : M A :=
  fun w =>
    match py_open path w with
    | (inl e, w1) => (inl e, w1)
    | (inr f, w1) =>
        let '(r, w2) := body f w1 in
        let '(_, w3) := f_close f w2 in
        (r, w3)
    end.

(** ** The WAV encoder: lines 64-90 of [generate_wav] *)

Definition num_channels : Z := 1.
Definition bits_per_sample : Z := 16.
Definition byte_rate (sample_rate : Z) : Z :=
  sample_rate * num_channels * (bits_per_sample / 8).
Definition block_align : Z := num_channels * (bits_per_sample / 8).
Definition data_size (audio_data : list byte) : Z := Z.of_nat (length audio_data).
Definition file_size (audio_data : list byte) : Z := 36 + data_size audio_data.

(** [f.write(struct.pack(..))]: the argument is evaluated first, and a
    [struct.error] leaves the file as the earlier writes made it. *)
Definition write_packed (f : handle) (packed : exn + list byte) : M unit :=
  x <- lift packed ;; f_write f x.

Definition wav_body (sample_rate : Z) (audio_data : list byte) (f : handle) : M unit :=
  (* RIFF header *)
  f_write f (bytes_lit "RIFF") ;;
  write_packed f (struct_pack_I (file_size audio_data)) ;;
  f_write f (bytes_lit "WAVE") ;;
  (* fmt chunk *)
  f_write f (bytes_lit "fmt ") ;;
  write_packed f (struct_pack_I 16) ;;
  write_packed f (struct_pack_H 1) ;;
  write_packed f (struct_pack_H num_channels) ;;
  write_packed f (struct_pack_I sample_rate) ;;
  write_packed f (struct_pack_I (byte_rate sample_rate)) ;;
  write_packed f (struct_pack_H block_align) ;;
  write_packed f (struct_pack_H bits_per_sample) ;;
  (* data chunk *)
  f_write f (bytes_lit "data") ;;
  write_packed f (struct_pack_I (data_size audio_data)) ;;
  f_write f audio_data.

Definition wav_encoder (output_file : string) (sample_rate : Z)
    (audio_data : list byte) : M unit :=
  with_open output_file (wav_body sample_rate audio_data).

(** ** The speech request: lines 16-56 of [generate_wav] *)

(** What [response.json()] returns: a Python value built from JSON. *)
#[warnings="-register-all"]
Inductive json : Type :=
| JNull
| JBool (b : bool)
| JNum (literal : string)
| JStr (s : string)
| JArr (items : list json)
| JObj (fields : gmap string json).

(** [key in result] for the Python values above: key membership for a
    dict, element membership for a list, substring test for a str, and
    [TypeError] for None, bool and numbers, which are not iterable. *)
Definition py_in (key : string) (result : json) : exn + bool :=
  match result with
  | JObj fields => inr (bool_decide (is_Some (fields !! key)))
  | JArr items =>
      inr (existsb (fun x => match x with
                             | JStr s => String.eqb s key
                             | _ => false
                             end) items)
  | JStr s => inr (match String.index 0 key s with Some _ => true | None => false end)
  | _ => inl TypeError
  end.

(** [result[key]] with a str key: only a dict can be indexed that way. *)
Definition py_getitem (result : json) (key : string) : exn + json :=
  match result with
  | JObj fields => match fields !! key with
                   | Some v => inr v
                   | None => inl KeyError
                   end
  | _ => inl TypeError
  end.

Record request_data : Type := RequestData {
  input_text : string;
  voice_languageCode : string;
  voice_name : string;
  voice_ssmlGender : string;
  audioConfig_audioEncoding : string;
  audioConfig_sampleRateHertz : Z
}.

Record response : Type := Response {
  status_code : Z;
  response_text : string;
  response_json : exn + json   (* what .json() returns or raises *)
}.

Section Client.

(** The credential that the script embeds; nothing below depends on
    its value. *)
Variable GOOGLE_TTS_API_KEY : string.

(** The network and the [requests] library: url, headers, json body
    and timeout to a response, or to the exception that the call
    raises when it does not complete. *)
Variable requests_post :
  string -> list (string * string) -> request_data -> Z -> exn + response.

(** [base64.b64decode] on a str. *)
Variable base64_b64decode : string -> exn + list byte.

Definition GOOGLE_TTS_URL : string :=
  String.append "https://texttospeech.googleapis.com/v1/text:synthesize?key="
                GOOGLE_TTS_API_KEY.

Definition post (url : string) (headers : list (string * string))
    (body : request_data) (timeout : Z) : M response :=
  fun w => (requests_post url headers body timeout, log EvPost w).

Definition json_of (r : response) : M json :=
  fun w => (response_json r, log EvJson w).

(** [base64.b64decode(v)]: a value that is not a str (or bytes-like)
    is a [TypeError]. *)
Definition b64decode (v : json) : M (list byte) :=
  fun w => (match v with
            | JStr s => base64_b64decode s
            | _ => inl TypeError
            end, log EvB64decode w).

(** The request body of lines 20-31. *)
Definition request_data_for (text : string) (sample_rate : Z) : request_data :=
  RequestData text "en-US" "en-US-Standard-D" "NEUTRAL" "LINEAR16" sample_rate.

Definition tts_headers : list (string * string) :=
  [("Content-Type", "application/json")].

Definition generate_wav (text output_file : string) (sample_rate : Z) : M bool :=
  (* Prepare the request *)
  let request := request_data_for text sample_rate in
  (* Make the API request *)
  response <- post GOOGLE_TTS_URL tts_headers request 15 ;;
  if negb (status_code response =? 200) then ret false
  else
    (* Parse the response *)
    result <- json_of response ;;
    present <- lift (py_in "audioContent" result) ;;
    if negb present then ret false
    else
      (* Decode the base64 audio *)
      content <- lift (py_getitem result "audioContent") ;;
      audio_data <- b64decode content ;;
      (* Create WAV file *)
      wav_encoder output_file sample_rate audio_data ;;
      ret true.

(** What the network answers to the one request that [generate_wav]
    makes. *)
Definition reply (text : string) (sample_rate : Z) : exn + response :=
  requests_post GOOGLE_TTS_URL tts_headers (request_data_for text sample_rate) 15.

(** The [__main__] block: the defaults and the two optional
    command-line arguments. *)
Definition argv_text (argv : list string) : string :=
  if 1 <? Z.of_nat (length argv) then nth 1 argv "" else "Nap home".

Definition argv_output_file (argv : list string) : string :=
  if 2 <? Z.of_nat (length argv) then nth 2 argv "" else "offline_welcome.wav".

(** [sys.exit(0 if success else 1)]; an exception that nothing catches
    ends the interpreter with status 1. *)
Definition main (argv : list string) (w : world) : Z * world :=
  match generate_wav (argv_text argv) (argv_output_file argv) 44100 w with
  | (inr success, w') => (if success then 0 else 1, w')
  | (inl _, w') => (1, w')
  end.

End Client.

(** The response body is a JSON object with an [audioContent] field. *)
Definition has_audioContent (r : response) : Prop :=
  match response_json r with
  | inr (JObj fields) => is_Some (fields !! "audioContent")
  | _ => False
  end.

(** The three ways in which the speech request fails: the call does not
    complete, the status is not 200, or the payload field is absent. *)
Inductive request_failure : exn + response -> Prop :=
| transport_failure (e : exn) : request_failure (inl e)
| status_failure (r : response) :
    status_code r <> 200 -> request_failure (inr r)
| payload_failure (r : response) :
    status_code r = 200 -> ~ has_audioContent r -> request_failure (inr r).

(** ** Reading a header back *)

(** Reading side of a little-endian field: the unsigned integer that a
    run of bytes denotes when the first byte is the least significant. *)
Fixpoint le_uint (bs : list byte) : Z :=
  match bs with
  | [] => 0
  | b :: bs' => Z_of_byte b + 256 * le_uint bs'
  end.

(** The bytes at offsets [off .. off + len - 1]. *)
Definition slice (off len : nat) (bs : list byte) : list byte :=
  firstn len (skipn off bs).

Record wav_header : Type := WavHeader {
  riff_size : Z;
  fmt_size : Z;
  audio_format : Z;
  channelCount : Z;
  sampleRateHz : Z;
  byteRate : Z;
  blockAlign : Z;
  bitsPerSample : Z;
  dataSize : Z
}.

(** A header parser for the canonical layout, written after the field
    list of the specification (section 4.2) and independent of the
    encoder: the four tags at offsets 0, 8, 12 and 36 must be present,
    and every numeric field is read at its offset, little-endian. *)
Definition parse_wav_header (bs : list byte) : option wav_header :=
  if (length bs <? 44)%nat then None
  else if bool_decide (slice 0 4 bs = [x52; x49; x46; x46]         (* RIFF *)
                       /\ slice 8 4 bs = [x57; x41; x56; x45]      (* WAVE *)
                       /\ slice 12 4 bs = [x66; x6d; x74; x20]     (* fmt_ *)
                       /\ slice 36 4 bs = [x64; x61; x74; x61])    (* data *)
  then Some (WavHeader (le_uint (slice 4 4 bs))
                       (le_uint (slice 16 4 bs))
                       (le_uint (slice 20 2 bs))
                       (le_uint (slice 22 2 bs))
                       (le_uint (slice 24 4 bs))
                       (le_uint (slice 28 4 bs))
                       (le_uint (slice 32 2 bs))
                       (le_uint (slice 34 2 bs))
                       (le_uint (slice 40 4 bs)))
  else None.

(** ** The encoder as a list of writes *)

(** The fourteen writes of the with block, in order; a [struct.pack]
    that raises is an [inl]. *)
Definition wav_chunks (sample_rate : Z) (audio_data : list byte)
  : list (exn + list byte) :=
  [ inr (bytes_lit "RIFF");
    struct_pack_I (file_size audio_data);
    inr (bytes_lit "WAVE");
    inr (bytes_lit "fmt ");
    struct_pack_I 16;
    struct_pack_H 1;
    struct_pack_H num_channels;
    struct_pack_I sample_rate;
    struct_pack_I (byte_rate sample_rate);
    struct_pack_H block_align;
    struct_pack_H bits_per_sample;
    inr (bytes_lit "data");
    struct_pack_I (data_size audio_data);
    inr audio_data ].

Fixpoint write_all (f : handle) (chunks : list (exn + list byte)) : M unit :=
  match chunks with
  | [] => ret tt
  | [c] => write_packed f c
  | c :: cs => write_packed f c ;; write_all f cs
  end.

(** The bytes of the chunks that precede the first failed [struct.pack]. *)
Fixpoint good_prefix (chunks : list (exn + list byte)) : list byte :=
  match chunks with
  | inr x :: cs => x ++ good_prefix cs
  | _ => []
  end.

Definition all_packed (chunks : list (exn + list byte)) : bool :=
  forallb (fun c => match c with inr _ => true | inl _ => false end) chunks.

(** The disk accepts [n] more writes. *)
Definition accepts (n : nat) (w : world) : Prop :=
  match wr_budget w with
  | None => True
  | Some k => (n <= k)%nat
  end.

(** The bytes that the fourteen writes add up to when every field fits
    its format. *)
Definition wav_image (sample_rate : Z) (audio_data : list byte) : list byte :=
  bytes_lit "RIFF" ++ le_bytes 4 (file_size audio_data) ++ bytes_lit "WAVE"
  ++ bytes_lit "fmt " ++ le_bytes 4 16 ++ le_bytes 2 1 ++ le_bytes 2 num_channels
  ++ le_bytes 4 sample_rate ++ le_bytes 4 (byte_rate sample_rate)
  ++ le_bytes 2 block_align ++ le_bytes 2 bits_per_sample
  ++ bytes_lit "data" ++ le_bytes 4 (data_size audio_data) ++ audio_data.

(** ** Concrete worlds and replies used in examples *)

Definition empty_world : world := World ∅ [] ∅ None [].

Definition reply_ok : response :=
  Response 200 "" (inr (JObj {[ "audioContent" := JStr "AAEC" ]})).
Definition reply_no_field : response :=
  Response 200 "" (inr (JObj {[ "error" := JStr "quota" ]})).
Definition reply_403 : response :=
  Response 403 "" (inr (JObj {[ "audioContent" := JStr "AAEC" ]})).

Definition net_of (r : exn + response)
  : string -> list (string * string) -> request_data -> Z -> exn + response :=
  fun _ _ _ _ => r.

(** A stand-in decoder for the examples: it knows one input. *)
Definition b64_example (s : string) : exn + list byte :=
  if String.eqb s "AAEC" then inr [x00; x01; x02] else inl BinasciiError.

(** ** Auxiliary views of a run *)

(** The world right after [open(path, 'wb')] succeeded. *)
Definition opened (path : string) (w : world) : world :=
  World (<[path := []]> (fs w)) (path :: open_files w)
        (unwritable w) (wr_budget w) (EvOpen path :: trace w).

(** The world when the encoder starts inside [generate_wav]: the post,
    the JSON parse and the base64 decode have been made. *)
Definition after_decode (w : world) : world :=
  log EvB64decode (log EvJson (log EvPost w)).

(** The fourteen fields as byte strings, for values that fit their
    formats. *)
Definition wav_fields (sample_rate : Z) (audio_data : list byte)
  : list (list byte) :=
  [ bytes_lit "RIFF";
    le_bytes 4 (file_size audio_data);
    bytes_lit "WAVE";
    bytes_lit "fmt ";
    le_bytes 4 16;
    le_bytes 2 1;
    le_bytes 2 num_channels;
    le_bytes 4 sample_rate;
    le_bytes 4 (byte_rate sample_rate);
    le_bytes 2 block_align;
    le_bytes 2 bits_per_sample;
    bytes_lit "data";
    le_bytes 4 (data_size audio_data);
    audio_data ].

(** The value under [audioContent] when the body is a JSON object that
    has the key. *)
Definition audioContent_of (r : response) : option json :=
  match response_json r with
  | inr (JObj fields) => fields !! "audioContent"
  | _ => None
  end.

(** Further worlds and replies for the examples. *)
Definition readonly_world : world :=
  World ∅ [] {[ "offline_welcome.wav" ]} None [].
Definition reply_number : response :=
  Response 200 "" (inr (JObj {[ "audioContent" := JNum "7" ]})).
Definition reply_not_base64 : response :=
  Response 200 "" (inr (JObj {[ "audioContent" := JStr "%" ]})).
Definition reply_array : response :=
  Response 200 "" (inr (JArr [JStr "audioContent"])).

(** A network that answers only to requests made with timeout 15. *)
Definition net_timeout_15 (r : response)
  : string -> list (string * string) -> request_data -> Z -> exn + response :=
  fun _ _ _ timeout => if timeout =? 15 then inr r else inl RequestException.

(** * Properties *)

(** ** Little-endian fields *)

Lemma Z_of_byte_of_Z (z : Z) : Z_of_byte (byte_of_Z z) = z mod 256.
Proof.
  unfold Z_of_byte, byte_of_Z.
  assert (Hr : 0 <= z mod 256 < 256) by (apply Z.mod_pos_bound; lia).
  destruct (Byte.of_N (Z.to_N (z mod 256))) as [b|] eqn:E.
  - apply Byte.to_of_N in E. rewrite E. lia.
  - apply Byte.of_N_None_iff in E. lia.
Qed.

Lemma length_le_bytes (n : nat) (v : Z) : length (le_bytes n v) = n.
Proof.
  revert v; induction n as [|n IH]; intros v; simpl; [reflexivity|].
  now rewrite IH.
Qed.

Lemma le_uint_le_bytes (n : nat) :
  forall v, 0 <= v < 2 ^ (8 * Z.of_nat n) -> le_uint (le_bytes n v) = v.
Proof.
  induction n as [|n IH]; intros v Hv.
  - simpl in *. lia.
  - cbn [le_bytes le_uint].
    rewrite Z_of_byte_of_Z.
    change 255 with (Z.ones 8). rewrite Z.land_ones by lia.
    rewrite Z.shiftr_div_pow2 by lia.
    change (2 ^ 8) with 256.
    rewrite Z.mod_mod by lia.
    replace (8 * Z.of_nat (S n)) with (8 + 8 * Z.of_nat n) in Hv by lia.
    rewrite Z.pow_add_r in Hv by lia. change (2 ^ 8) with 256 in Hv.
    rewrite IH.
    + pose proof (Z.div_mod v 256). lia.
    + split; [apply Z.div_pos; lia|].
      apply Z.div_lt_upper_bound; lia.
Qed.

Lemma struct_pack_I_inr (v : Z) (x : list byte) :
  struct_pack_I v = inr x ->
  0 <= v < 2 ^ 32 /\ x = le_bytes 4 v /\ length x = 4%nat /\ le_uint x = v.
Proof.
  unfold struct_pack_I.
  destruct (0 <=? v) eqn:H0; destruct (v <=? 4294967295) eqn:H1;
    cbn [andb]; intros H; try discriminate.
  injection H as <-.
  apply Z.leb_le in H0, H1.
  assert (Hv : 0 <= v < 2 ^ 32) by (change (2 ^ 32) with 4294967296; lia).
  split; [exact Hv|]. split; [reflexivity|]. split; [reflexivity|].
  apply (le_uint_le_bytes 4). exact Hv.
Qed.

Lemma struct_pack_H_inr (v : Z) (x : list byte) :
  struct_pack_H v = inr x ->
  0 <= v < 2 ^ 16 /\ x = le_bytes 2 v /\ length x = 2%nat /\ le_uint x = v.
Proof.
  unfold struct_pack_H.
  destruct (0 <=? v) eqn:H0; destruct (v <=? 65535) eqn:H1;
    cbn [andb]; intros H; try discriminate.
  injection H as <-.
  apply Z.leb_le in H0, H1.
  assert (Hv : 0 <= v < 2 ^ 16) by (change (2 ^ 16) with 65536; lia).
  split; [exact Hv|]. split; [reflexivity|]. split; [reflexivity|].
  apply (le_uint_le_bytes 2). exact Hv.
Qed.

Lemma struct_pack_I_ok (v : Z) :
  0 <= v < 2 ^ 32 -> struct_pack_I v = inr (le_bytes 4 v).
Proof.
  intros Hv. change (2 ^ 32) with 4294967296 in Hv. unfold struct_pack_I.
  destruct (Z.leb_spec 0 v); destruct (Z.leb_spec v 4294967295);
    cbn [andb]; try reflexivity; lia.
Qed.

Lemma struct_pack_I_overflow (v : Z) :
  2 ^ 32 <= v -> struct_pack_I v = inl StructError.
Proof.
  intros Hv. change (2 ^ 32) with 4294967296 in Hv. unfold struct_pack_I.
  destruct (Z.leb_spec 0 v); destruct (Z.leb_spec v 4294967295);
    cbn [andb]; try reflexivity; lia.
Qed.

(** ** One write after another *)

Lemma wav_body_write_all (sample_rate : Z) (audio_data : list byte) (f : handle) :
  wav_body sample_rate audio_data f = write_all f (wav_chunks sample_rate audio_data).
Proof. reflexivity. Qed.

Lemma existsb_eqb_head (p : string) (l : list string) :
  existsb (String.eqb p) (p :: l) = true.
Proof. cbn. now rewrite String.eqb_refl. Qed.

Lemma remove_first_head (p : string) (l : list string) :
  remove_first p (p :: l) = l.
Proof. cbn. now rewrite String.eqb_refl. Qed.

(** What one [f.write(struct.pack(..))] does to a world in which the
    handle is open and the file holds [c0]. *)
Lemma write_packed_cases (f : handle) (c : exn + list byte) (w : world) (c0 : list byte) :
  existsb (String.eqb f) (open_files w) = true ->
  fs w !! f = Some c0 ->
  match c with
  | inl e => write_packed f c w = (inl e, w)
  | inr x =>
      match wr_budget w with
      | Some O => write_packed f c w = (inl OSError, log (EvWrite f) w)
      | b => write_packed f c w =
             (inr tt, World (<[f := c0 ++ x]> (fs w)) (open_files w)
                            (unwritable w) (Nat.pred <$> b) (EvWrite f :: trace w))
      end
  end.
Proof.
  intros Hopen Hfile. destruct c as [e|x]; [reflexivity|].
  unfold write_packed, bind, lift, f_write. rewrite Hopen, Hfile. cbn.
  destruct (wr_budget w) as [[|k]|]; reflexivity.
Qed.

Lemma write_all_cons (f : handle) (c : exn + list byte) (cs : list (exn + list byte))
    (w : world) :
  write_all f (c :: cs) w = bind (write_packed f c) (fun _ => write_all f cs) w.
Proof.
  destruct cs as [|c' cs']; [|reflexivity].
  cbn [write_all]. unfold bind, ret.
  destruct (write_packed f c w) as [[e|[]] w']; reflexivity.
Qed.

(** The invariant of a run of writes on an open handle: the file grows
    by a prefix of the bytes that could be packed, nothing else in the
    world moves, and the run succeeds exactly when every chunk was
    packed and the disk took every write. *)
Lemma write_all_spec (f : handle) (chunks : list (exn + list byte)) :
  forall (w : world) (c0 : list byte),
    existsb (String.eqb f) (open_files w) = true ->
    fs w !! f = Some c0 ->
    exists written : list byte,
      fs (snd (write_all f chunks w)) = <[f := c0 ++ written]> (fs w)
      /\ open_files (snd (write_all f chunks w)) = open_files w
      /\ unwritable (snd (write_all f chunks w)) = unwritable w
      /\ written `prefix_of` good_prefix chunks
      /\ (fst (write_all f chunks w) = inr tt ->
          written = good_prefix chunks /\ all_packed chunks = true)
      /\ (all_packed chunks = true -> accepts (length chunks) w ->
          fst (write_all f chunks w) = inr tt).
Proof.
  induction chunks as [|c cs IH]; intros w c0 Hopen Hfile.
  - exists []. cbn. rewrite app_nil_r, insert_id by exact Hfile.
    repeat split; auto.
  - rewrite write_all_cons. unfold bind.
    pose proof (write_packed_cases f c w c0 Hopen Hfile) as Hstep.
    destruct c as [e|x].
    + rewrite Hstep. exists []. cbn.
      rewrite app_nil_r, insert_id by exact Hfile.
      repeat split; auto; discriminate.
    + destruct (wr_budget w) as [[|k]|] eqn:Hb; rewrite Hstep.
      * exists []. cbn. rewrite app_nil_r, insert_id by exact Hfile.
        repeat split; auto using prefix_nil; try discriminate.
        intros _. unfold accepts. rewrite Hb. lia.
      * match goal with |- context [write_all f cs ?w'] => set (w1 := w') end.
        destruct (IH w1 (c0 ++ x)) as (wr & Hfs & Hof & Huw & Hpre & Hok & Hall).
        { exact Hopen. }
        { subst w1. cbn. apply lookup_insert_eq. }
        exists (x ++ wr). rewrite Hfs, Hof, Huw. subst w1. cbn [fs open_files unwritable].
        rewrite insert_insert_eq, app_assoc.
        repeat split; auto.
        -- cbn. now apply prefix_app.
        -- cbn. f_equal. now apply Hok.
        -- now apply Hok.
        -- intros Hp Hacc. apply Hall; [exact Hp|].
           unfold accepts in *. rewrite Hb in Hacc. cbn in *. lia.
      * match goal with |- context [write_all f cs ?w'] => set (w1 := w') end.
        destruct (IH w1 (c0 ++ x)) as (wr & Hfs & Hof & Huw & Hpre & Hok & Hall).
        { exact Hopen. }
        { subst w1. cbn. apply lookup_insert_eq. }
        exists (x ++ wr). rewrite Hfs, Hof, Huw. subst w1. cbn [fs open_files unwritable].
        rewrite insert_insert_eq, app_assoc.
        repeat split; auto.
        -- cbn. now apply prefix_app.
        -- cbn. f_equal. now apply Hok.
        -- now apply Hok.
        -- intros Hp Hacc. apply Hall; [exact Hp|].
           unfold accepts. cbn. exact I.
Qed.

(** ** The encoder *)

Lemma wav_encoder_refused (w : world) (path : string) (sample_rate : Z)
    (audio_data : list byte) :
  path ∈ unwritable w ->
  wav_encoder path sample_rate audio_data w = (inl OSError, log (EvOpen path) w).
Proof.
  intros Hin. unfold wav_encoder, with_open, py_open.
  now rewrite bool_decide_eq_true_2.
Qed.

Lemma wav_encoder_spec (w : world) (path : string) (sample_rate : Z)
    (audio_data : list byte) :
  path ∉ unwritable w ->
  exists written : list byte,
    fs (snd (wav_encoder path sample_rate audio_data w)) = <[path := written]> (fs w)
    /\ open_files (snd (wav_encoder path sample_rate audio_data w)) = open_files w
    /\ written `prefix_of` good_prefix (wav_chunks sample_rate audio_data)
    /\ (fst (wav_encoder path sample_rate audio_data w) = inr tt ->
        written = good_prefix (wav_chunks sample_rate audio_data)
        /\ all_packed (wav_chunks sample_rate audio_data) = true)
    /\ (all_packed (wav_chunks sample_rate audio_data) = true -> accepts 14 w ->
        fst (wav_encoder path sample_rate audio_data w) = inr tt).
Proof.
  intros Hout. unfold wav_encoder, with_open, py_open.
  rewrite bool_decide_eq_false_2 by exact Hout.
  rewrite wav_body_write_all.
  match goal with |- context [write_all path _ ?w'] => set (w1 := w') end.
  destruct (write_all_spec path (wav_chunks sample_rate audio_data) w1 [])
    as (wr & Hfs & Hof & _ & Hpre & Hok & Hall).
  { subst w1. cbn [open_files]. apply existsb_eqb_head. }
  { subst w1. cbn [fs]. apply lookup_insert_eq. }
  destruct (write_all path (wav_chunks sample_rate audio_data) w1) as [r w2] eqn:Hrun.
  cbn [fst snd] in *. cbn [f_close fst snd fs open_files].
  exists wr. rewrite Hfs, Hof. subst w1. cbn [fs open_files wr_budget] in *.
  rewrite insert_insert_eq, remove_first_head.
  repeat split; auto; try apply Hok; auto.
Qed.

Lemma wav_chunks_packed (sample_rate : Z) (audio_data : list byte) :
  all_packed (wav_chunks sample_rate audio_data) = true ->
  good_prefix (wav_chunks sample_rate audio_data) = wav_image sample_rate audio_data
  /\ 0 <= file_size audio_data < 2 ^ 32
  /\ 0 <= sample_rate < 2 ^ 32
  /\ 0 <= byte_rate sample_rate < 2 ^ 32.
Proof.
  unfold wav_chunks, wav_image.
  destruct (struct_pack_I (file_size audio_data)) as [e1|x1] eqn:E1;
    [discriminate|].
  destruct (struct_pack_I sample_rate) as [e2|x2] eqn:E2; [discriminate|].
  destruct (struct_pack_I (byte_rate sample_rate)) as [e3|x3] eqn:E3;
    [discriminate|].
  destruct (struct_pack_I (data_size audio_data)) as [e4|x4] eqn:E4;
    [discriminate|].
  intros _.
  apply struct_pack_I_inr in E1 as (R1 & -> & _ & _).
  apply struct_pack_I_inr in E2 as (R2 & -> & _ & _).
  apply struct_pack_I_inr in E3 as (R3 & -> & _ & _).
  apply struct_pack_I_inr in E4 as (R4 & -> & _ & _).
  split; [|auto].
  change (struct_pack_I 16) with (@inr exn _ (le_bytes 4 16)).
  change (struct_pack_H 1) with (@inr exn _ (le_bytes 2 1)).
  change (struct_pack_H num_channels) with (@inr exn _ (le_bytes 2 num_channels)).
  change (struct_pack_H block_align) with (@inr exn _ (le_bytes 2 block_align)).
  change (struct_pack_H bits_per_sample) with (@inr exn _ (le_bytes 2 bits_per_sample)).
  cbn [good_prefix]. now rewrite app_nil_r.
Qed.

Lemma wav_chunks_in_range (sample_rate : Z) (audio_data : list byte) :
  0 <= sample_rate < 2 ^ 31 ->
  Z.of_nat (length audio_data) + 36 < 2 ^ 32 ->
  all_packed (wav_chunks sample_rate audio_data) = true.
Proof.
  intros Hsr HL. unfold wav_chunks.
  change (2 ^ 31) with 2147483648 in Hsr. change (2 ^ 32) with 4294967296 in HL.
  rewrite (struct_pack_I_ok (file_size audio_data)),
          (struct_pack_I_ok sample_rate),
          (struct_pack_I_ok (byte_rate sample_rate)),
          (struct_pack_I_ok (data_size audio_data)); [reflexivity| | | |];
    unfold file_size, data_size, byte_rate, num_channels, bits_per_sample;
    change (2 ^ 32) with 4294967296; change (16 / 8) with 2; lia.
Qed.

(** ** The image: where each field sits *)

Lemma length_wav_image (sample_rate : Z) (audio_data : list byte) :
  length (wav_image sample_rate audio_data) = (44 + length audio_data)%nat.
Proof. reflexivity. Qed.

Lemma wav_image_fields (sample_rate : Z) (audio_data : list byte) :
  slice 0 4 (wav_image sample_rate audio_data) = [x52; x49; x46; x46]
  /\ slice 4 4 (wav_image sample_rate audio_data) = le_bytes 4 (file_size audio_data)
  /\ slice 8 4 (wav_image sample_rate audio_data) = [x57; x41; x56; x45]
  /\ slice 12 4 (wav_image sample_rate audio_data) = [x66; x6d; x74; x20]
  /\ slice 16 4 (wav_image sample_rate audio_data) = le_bytes 4 16
  /\ slice 20 2 (wav_image sample_rate audio_data) = le_bytes 2 1
  /\ slice 22 2 (wav_image sample_rate audio_data) = le_bytes 2 num_channels
  /\ slice 24 4 (wav_image sample_rate audio_data) = le_bytes 4 sample_rate
  /\ slice 28 4 (wav_image sample_rate audio_data) = le_bytes 4 (byte_rate sample_rate)
  /\ slice 32 2 (wav_image sample_rate audio_data) = le_bytes 2 block_align
  /\ slice 34 2 (wav_image sample_rate audio_data) = le_bytes 2 bits_per_sample
  /\ slice 36 4 (wav_image sample_rate audio_data) = [x64; x61; x74; x61]
  /\ slice 40 4 (wav_image sample_rate audio_data) = le_bytes 4 (data_size audio_data)
  /\ skipn 44 (wav_image sample_rate audio_data) = audio_data.
Proof. repeat split. Qed.

(** A run that returns has written the whole image, and every packed
    value was in range. *)
Lemma wav_encoder_returned (w : world) (path : string) (sample_rate : Z)
    (audio_data : list byte) :
  fst (wav_encoder path sample_rate audio_data w) = inr tt ->
  fs (snd (wav_encoder path sample_rate audio_data w)) !! path
    = Some (wav_image sample_rate audio_data)
  /\ 0 <= file_size audio_data < 2 ^ 32
  /\ 0 <= sample_rate < 2 ^ 32
  /\ 0 <= byte_rate sample_rate < 2 ^ 32.
Proof.
  intros Hret.
  destruct (decide (path ∈ unwritable w)) as [Hin|Hout].
  { rewrite wav_encoder_refused in Hret by exact Hin. discriminate. }
  destruct (wav_encoder_spec w path sample_rate audio_data Hout)
    as (wr & Hfs & _ & _ & Hok & _).
  destruct (Hok Hret) as [-> Hall].
  destruct (wav_chunks_packed _ _ Hall) as (Himg & R).
  rewrite Hfs, Himg, lookup_insert_eq. auto.
Qed.

(** With every value in range, a writable path and a disk that takes
    fourteen writes, the run returns. *)
Lemma wav_encoder_returns (w : world) (path : string) (sample_rate : Z)
    (audio_data : list byte) :
  path ∉ unwritable w -> accepts 14 w ->
  0 <= sample_rate < 2 ^ 31 ->
  Z.of_nat (length audio_data) + 36 < 2 ^ 32 ->
  fst (wav_encoder path sample_rate audio_data w) = inr tt
  /\ fs (snd (wav_encoder path sample_rate audio_data w)) !! path
     = Some (wav_image sample_rate audio_data).
Proof.
  intros Hout Hacc Hsr HL.
  destruct (wav_encoder_spec w path sample_rate audio_data Hout)
    as (wr & _ & _ & _ & _ & Hall).
  assert (Hret : fst (wav_encoder path sample_rate audio_data w) = inr tt).
  { apply Hall; [now apply wav_chunks_in_range|exact Hacc]. }
  split; [exact Hret|]. now apply wav_encoder_returned.
Qed.

Lemma parse_wav_image (sample_rate : Z) (audio_data : list byte) :
  parse_wav_header (wav_image sample_rate audio_data)
  = Some (WavHeader (le_uint (le_bytes 4 (file_size audio_data)))
                    (le_uint (le_bytes 4 16))
                    (le_uint (le_bytes 2 1))
                    (le_uint (le_bytes 2 num_channels))
                    (le_uint (le_bytes 4 sample_rate))
                    (le_uint (le_bytes 4 (byte_rate sample_rate)))
                    (le_uint (le_bytes 2 block_align))
                    (le_uint (le_bytes 2 bits_per_sample))
                    (le_uint (le_bytes 4 (data_size audio_data)))).
Proof.
  unfold parse_wav_header. rewrite length_wav_image.
  destruct (Nat.ltb_spec (44 + length audio_data) 44) as [Hlt|_]; [lia|].
  rewrite bool_decide_eq_true_2 by (repeat split).
  reflexivity.
Qed.

(** * The claims about the encoder *)

(** C1 (as amended).  For a mono, 16-bit encoder run with a positive
    sample rate below 2^31 and a PCM buffer of length L with
    L + 36 < 2^32 (on a writable path and a disk that takes the fourteen
    writes), the file holds exactly the fourteen fields of the canonical
    layout, in order: RIFF, uint32-LE L + 44 - 8, WAVE, fmt_, uint32-LE
    16, uint16-LE 1, uint16-LE channel count, uint32-LE sample rate,
    uint32-LE byte rate, uint16-LE block alignment, uint16-LE bits per
    sample, data, uint32-LE L, and then the PCM buffer unchanged. *)
Theorem wav_encoder_layout (w : world) (path : string) (sample_rate : Z)
    (pcm : list byte) :
  path ∉ unwritable w -> accepts 14 w ->
  0 < sample_rate < 2 ^ 31 ->
  Z.of_nat (length pcm) + 36 < 2 ^ 32 ->
  fst (wav_encoder path sample_rate pcm w) = inr tt
  /\ exists size fmt_len fmt_code channels rate brate align bits dsize : list byte,
      fs (snd (wav_encoder path sample_rate pcm w)) !! path
      = Some ([x52; x49; x46; x46] ++ size ++ [x57; x41; x56; x45]
              ++ [x66; x6d; x74; x20] ++ fmt_len ++ fmt_code ++ channels
              ++ rate ++ brate ++ align ++ bits
              ++ [x64; x61; x74; x61] ++ dsize ++ pcm)
      /\ (length size = 4%nat /\ le_uint size = Z.of_nat (length pcm) + 44 - 8)
      /\ (length fmt_len = 4%nat /\ le_uint fmt_len = 16)
      /\ (length fmt_code = 2%nat /\ le_uint fmt_code = 1)
      /\ (length channels = 2%nat /\ le_uint channels = 1)
      /\ (length rate = 4%nat /\ le_uint rate = sample_rate)
      /\ (length brate = 4%nat /\ le_uint brate = sample_rate * 1 * (16 / 8))
      /\ (length align = 2%nat /\ le_uint align = 1 * (16 / 8))
      /\ (length bits = 2%nat /\ le_uint bits = 16)
      /\ (length dsize = 4%nat /\ le_uint dsize = Z.of_nat (length pcm)).
Proof.
  intros Hout Hacc Hsr HL.
  destruct (wav_encoder_returns w path sample_rate pcm Hout Hacc) as [Hret Hfile];
    [lia|exact HL|].
  destruct (wav_encoder_returned w path sample_rate pcm Hret) as (_ & R1 & R2 & R3).
  split; [exact Hret|].
  exists (le_bytes 4 (file_size pcm)), (le_bytes 4 16), (le_bytes 2 1),
    (le_bytes 2 num_channels), (le_bytes 4 sample_rate),
    (le_bytes 4 (byte_rate sample_rate)), (le_bytes 2 block_align),
    (le_bytes 2 bits_per_sample), (le_bytes 4 (data_size pcm)).
  split; [exact Hfile|].
  repeat (split; [split; [reflexivity|]|]); [ | | | | | | | |split; [reflexivity|]].
  - rewrite (le_uint_le_bytes 4) by exact R1. unfold file_size, data_size. lia.
  - reflexivity.
  - reflexivity.
  - reflexivity.
  - now rewrite (le_uint_le_bytes 4).
  - now rewrite (le_uint_le_bytes 4).
  - reflexivity.
  - reflexivity.
  - rewrite (le_uint_le_bytes 4); [reflexivity|].
    unfold file_size in R1. fold (data_size pcm) in HL. unfold data_size in *. lia.
Qed.

(** C2 (as amended).  With a positive sample rate below 2^31 and a PCM
    buffer of length L with L + 36 < 2^32, the file written has length
    L + 44, and its bytes 4..7, read as a little-endian unsigned
    integer, are L + 36. *)
Theorem wav_encoder_length_and_riff_size (w : world) (path : string)
    (sample_rate : Z) (pcm : list byte) :
  path ∉ unwritable w -> accepts 14 w ->
  0 < sample_rate < 2 ^ 31 ->
  Z.of_nat (length pcm) + 36 < 2 ^ 32 ->
  exists out : list byte,
    fst (wav_encoder path sample_rate pcm w) = inr tt
    /\ fs (snd (wav_encoder path sample_rate pcm w)) !! path = Some out
    /\ Z.of_nat (length out) = Z.of_nat (length pcm) + 44
    /\ le_uint (slice 4 4 out) = Z.of_nat (length pcm) + 36.
Proof.
  intros Hout Hacc Hsr HL.
  destruct (wav_encoder_returns w path sample_rate pcm Hout Hacc) as [Hret Hfile];
    [lia|exact HL|].
  destruct (wav_encoder_returned w path sample_rate pcm Hret) as (_ & R1 & _).
  exists (wav_image sample_rate pcm).
  split; [exact Hret|]. split; [exact Hfile|]. split.
  - rewrite length_wav_image. lia.
  - destruct (wav_image_fields sample_rate pcm) as (_ & -> & _).
    rewrite (le_uint_le_bytes 4) by exact R1. unfold file_size, data_size. lia.
Qed.

(** C3 (as amended).  Round trip: with a positive sample rate below
    2^31 and a PCM buffer of length L with L + 36 < 2^32, parsing the
    header of the file written gives back the sample rate, one channel,
    sixteen bits per sample, and a data-chunk size of L. *)
Theorem wav_encoder_round_trip (w : world) (path : string) (sample_rate : Z)
    (pcm : list byte) :
  path ∉ unwritable w -> accepts 14 w ->
  0 < sample_rate < 2 ^ 31 ->
  Z.of_nat (length pcm) + 36 < 2 ^ 32 ->
  exists (out : list byte) (h : wav_header),
    fs (snd (wav_encoder path sample_rate pcm w)) !! path = Some out
    /\ parse_wav_header out = Some h
    /\ sampleRateHz h = sample_rate
    /\ channelCount h = 1
    /\ bitsPerSample h = 16
    /\ dataSize h = Z.of_nat (length pcm).
Proof.
  intros Hout Hacc Hsr HL.
  destruct (wav_encoder_returns w path sample_rate pcm Hout Hacc) as [Hret Hfile];
    [lia|exact HL|].
  destruct (wav_encoder_returned w path sample_rate pcm Hret) as (_ & R1 & R2 & _).
  eexists _, _. split; [exact Hfile|]. split; [apply parse_wav_image|].
  cbn [sampleRateHz channelCount bitsPerSample dataSize].
  split; [now apply (le_uint_le_bytes 4)|].
  split; [reflexivity|]. split; [reflexivity|].
  apply (le_uint_le_bytes 4). unfold file_size in R1. unfold data_size in *. lia.
Qed.

(** C4.  Whenever the encoder returns, the byte-rate field of the file
    (offsets 28..31) is sampleRateHz * channelCount * (bitsPerSample/8)
    and the block-alignment field (offsets 32..33) is
    channelCount * (bitsPerSample/8), with channelCount = 1 and
    bitsPerSample = 16. *)
Theorem wav_encoder_byte_rate_block_align (w : world) (path : string)
    (sample_rate : Z) (pcm : list byte) :
  fst (wav_encoder path sample_rate pcm w) = inr tt ->
  exists out : list byte,
    fs (snd (wav_encoder path sample_rate pcm w)) !! path = Some out
    /\ le_uint (slice 28 4 out) = sample_rate * 1 * (16 / 8)
    /\ le_uint (slice 32 2 out) = 1 * (16 / 8).
Proof.
  intros Hret.
  destruct (wav_encoder_returned w path sample_rate pcm Hret) as (Hfile & _ & _ & R3).
  exists (wav_image sample_rate pcm). split; [exact Hfile|].
  destruct (wav_image_fields sample_rate pcm)
    as (_ & _ & _ & _ & _ & _ & _ & _ & -> & -> & _).
  split; [|reflexivity].
  now rewrite (le_uint_le_bytes 4).
Qed.

(** C9 (as amended).  With an empty PCM buffer and a positive sample
    rate below 2^31, the encoder writes a file of exactly 44 bytes that
    is a valid WAV file: the four tags are in place and every numeric
    field of the header has the value the format asks for (RIFF size
    36, fmt size 16, format code 1, one channel, the sample rate, the
    byte rate, the block alignment, 16 bits), with a data-chunk size
    of 0. *)
Theorem wav_encoder_empty_buffer (w : world) (path : string) (sample_rate : Z) :
  path ∉ unwritable w -> accepts 14 w ->
  0 < sample_rate < 2 ^ 31 ->
  exists (out : list byte) (h : wav_header),
    fst (wav_encoder path sample_rate [] w) = inr tt
    /\ fs (snd (wav_encoder path sample_rate [] w)) !! path = Some out
    /\ length out = 44%nat
    /\ parse_wav_header out = Some h
    /\ riff_size h = 36
    /\ fmt_size h = 16
    /\ audio_format h = 1
    /\ channelCount h = 1
    /\ sampleRateHz h = sample_rate
    /\ byteRate h = sample_rate * 1 * (16 / 8)
    /\ blockAlign h = 1 * (16 / 8)
    /\ bitsPerSample h = 16
    /\ dataSize h = 0
    /\ le_uint (slice 40 4 out) = 0.
Proof.
  intros Hout Hacc Hsr.
  destruct (wav_encoder_returns w path sample_rate [] Hout Hacc) as [Hret Hfile];
    [lia|cbn; lia|].
  destruct (wav_encoder_returned w path sample_rate [] Hret) as (_ & _ & R2 & R3).
  eexists _, _. split; [exact Hret|]. split; [exact Hfile|].
  split; [reflexivity|]. split; [apply parse_wav_image|].
  cbn [riff_size fmt_size audio_format channelCount sampleRateHz byteRate
       blockAlign bitsPerSample dataSize].
  split; [reflexivity|]. split; [reflexivity|]. split; [reflexivity|].
  split; [reflexivity|].
  split; [now apply (le_uint_le_bytes 4)|].
  split; [now rewrite (le_uint_le_bytes 4)|].
  split; [reflexivity|]. split; [reflexivity|]. split; reflexivity.
Qed.

(** C10 (as amended).  No alignment precondition: for every sample rate
    from 0 to 2^31 - 1 and every byte buffer of length L with
    L + 36 < 2^32, whatever L is modulo the block alignment, the encoder
    returns and the file has L + 44 bytes and ends with the buffer
    (writable path, disk taking the writes). *)
Theorem wav_encoder_no_alignment_check (w : world) (path : string)
    (sample_rate : Z) (pcm : list byte) :
  path ∉ unwritable w -> accepts 14 w ->
  0 <= sample_rate < 2 ^ 31 ->
  Z.of_nat (length pcm) + 36 < 2 ^ 32 ->
  exists out : list byte,
    fst (wav_encoder path sample_rate pcm w) = inr tt
    /\ fs (snd (wav_encoder path sample_rate pcm w)) !! path = Some out
    /\ Z.of_nat (length out) = Z.of_nat (length pcm) + 44
    /\ skipn 44 out = pcm.
Proof.
  intros Hout Hacc Hsr HL.
  destruct (wav_encoder_returns w path sample_rate pcm Hout Hacc Hsr HL)
    as [Hret Hfile].
  exists (wav_image sample_rate pcm).
  split; [exact Hret|]. split; [exact Hfile|]. split.
  - rewrite length_wav_image. lia.
  - reflexivity.
Qed.

(** ** Where the unbounded forms of C1, C2, C3 and C9 fail

    A sample rate of 2^31 or more is a positive integer, yet twice it no
    longer fits the four bytes of the byte-rate field (and from 2^32 on
    the rate itself no longer fits): [struct.pack] raises and the
    encoder stops part-way. *)

(** C1 refuted as stated: at 3 000 000 000 Hz the encoder raises on the
    byte-rate field, and the file holds 28 bytes, not the 14 fields. *)
Lemma layout_fails_at_3000000000_Hz :
  0 < 3000000000
  /\ fst (wav_encoder "offline_welcome.wav" 3000000000 [x01; x02] empty_world)
     = inl StructError
  /\ fs (snd (wav_encoder "offline_welcome.wav" 3000000000 [x01; x02] empty_world))
       !! "offline_welcome.wav"
     = Some [x52; x49; x46; x46; x26; x00; x00; x00; x57; x41; x56; x45;
             x66; x6d; x74; x20; x10; x00; x00; x00; x01; x00; x01; x00;
             x00; x5e; xd0; xb2].
Proof. vm_compute. repeat split; reflexivity. Qed.

(** C2 refuted as stated: at 5 000 000 000 Hz and L = 4 the encoder
    raises on the sample-rate field; the file has 24 bytes, not L + 44. *)
Lemma length_fails_at_5000000000_Hz :
  0 < 5000000000
  /\ fst (wav_encoder "offline_welcome.wav" 5000000000 [x00; x00; x00; x00] empty_world)
     = inl StructError
  /\ exists out : list byte,
       fs (snd (wav_encoder "offline_welcome.wav" 5000000000 [x00; x00; x00; x00]
                            empty_world)) !! "offline_welcome.wav" = Some out
       /\ Z.of_nat (length out) = 24
       /\ Z.of_nat (length out) <> 4 + 44.
Proof.
  split; [lia|]. split; [vm_compute; reflexivity|].
  eexists. split; [vm_compute; reflexivity|]. split; [reflexivity|]. cbn. lia.
Qed.

(** C3 refuted as stated: at 2^31 Hz the file that is left does not
    parse, so the sample rate is not recovered. *)
Lemma round_trip_fails_at_2147483648_Hz :
  0 < 2147483648
  /\ fst (wav_encoder "offline_welcome.wav" 2147483648 [x00; x00] empty_world)
     = inl StructError
  /\ exists out : list byte,
       fs (snd (wav_encoder "offline_welcome.wav" 2147483648 [x00; x00] empty_world))
         !! "offline_welcome.wav" = Some out
       /\ parse_wav_header out = None.
Proof.
  split; [lia|]. split; [vm_compute; reflexivity|].
  eexists. split; [vm_compute; reflexivity|]. vm_compute. reflexivity.
Qed.

(** C9 refuted as stated: with an empty buffer and 2^32 Hz the encoder
    raises; the file has 24 bytes, not 44. *)
Lemma empty_buffer_fails_at_4294967296_Hz :
  0 < 4294967296
  /\ fst (wav_encoder "offline_welcome.wav" 4294967296 [] empty_world)
     = inl StructError
  /\ exists out : list byte,
       fs (snd (wav_encoder "offline_welcome.wav" 4294967296 [] empty_world))
         !! "offline_welcome.wav" = Some out
       /\ length out = 24%nat
       /\ length out <> 44%nat.
Proof.
  split; [lia|]. split; [vm_compute; reflexivity|].
  eexists. split; [vm_compute; reflexivity|]. split; [reflexivity|]. cbn. lia.
Qed.

(** C10 refuted as stated: a three-byte buffer satisfies L + 36 < 2^32,
    yet at 2^31 Hz the encoder raises on the byte-rate field and the
    file has 28 bytes, not L + 44. *)
Lemma no_alignment_check_fails_at_2147483648_Hz :
  Z.of_nat (length [x01; x02; x03]) + 36 < 2 ^ 32
  /\ 0 < 2147483648
  /\ fst (wav_encoder "offline_welcome.wav" 2147483648 [x01; x02; x03] empty_world)
     = inl StructError
  /\ exists out : list byte,
       fs (snd (wav_encoder "offline_welcome.wav" 2147483648 [x01; x02; x03]
                            empty_world)) !! "offline_welcome.wav" = Some out
       /\ Z.of_nat (length out) = 28
       /\ Z.of_nat (length out) <> Z.of_nat (length [x01; x02; x03]) + 44.
Proof.
  split; [cbn; lia|]. split; [lia|]. split; [vm_compute; reflexivity|].
  eexists. split; [vm_compute; reflexivity|]. split; [reflexivity|]. cbn. lia.
Qed.

(** ** Instances *)

Lemma empty_world_writable (path : string) : path ∉ unwritable empty_world.
Proof. cbn. apply not_elem_of_empty. Defined.

Lemma wav_encoder_layout_witness :
  fst (wav_encoder "offline_welcome.wav" 44100 [x01; x02; x03; x04] empty_world) = inr tt
  /\ exists size fmt_len fmt_code channels rate brate align bits dsize : list byte,
      fs (snd (wav_encoder "offline_welcome.wav" 44100 [x01; x02; x03; x04] empty_world))
        !! "offline_welcome.wav"
      = Some ([x52; x49; x46; x46] ++ size ++ [x57; x41; x56; x45]
              ++ [x66; x6d; x74; x20] ++ fmt_len ++ fmt_code ++ channels
              ++ rate ++ brate ++ align ++ bits
              ++ [x64; x61; x74; x61] ++ dsize ++ [x01; x02; x03; x04])
      /\ (length size = 4%nat /\ le_uint size = Z.of_nat 4 + 44 - 8)
      /\ (length fmt_len = 4%nat /\ le_uint fmt_len = 16)
      /\ (length fmt_code = 2%nat /\ le_uint fmt_code = 1)
      /\ (length channels = 2%nat /\ le_uint channels = 1)
      /\ (length rate = 4%nat /\ le_uint rate = 44100)
      /\ (length brate = 4%nat /\ le_uint brate = 44100 * 1 * (16 / 8))
      /\ (length align = 2%nat /\ le_uint align = 1 * (16 / 8))
      /\ (length bits = 2%nat /\ le_uint bits = 16)
      /\ (length dsize = 4%nat /\ le_uint dsize = Z.of_nat 4).
Proof.
  apply (wav_encoder_layout empty_world "offline_welcome.wav" 44100
                            [x01; x02; x03; x04]).
  - apply empty_world_writable.
  - exact I.
  - lia.
  - cbn. lia.
Defined.

Lemma wav_encoder_length_and_riff_size_witness :
  exists out : list byte,
    fst (wav_encoder "offline_welcome.wav" 44100 [x01; x02] empty_world) = inr tt
    /\ fs (snd (wav_encoder "offline_welcome.wav" 44100 [x01; x02] empty_world))
         !! "offline_welcome.wav" = Some out
    /\ Z.of_nat (length out) = Z.of_nat 2 + 44
    /\ le_uint (slice 4 4 out) = Z.of_nat 2 + 36.
Proof.
  apply (wav_encoder_length_and_riff_size empty_world "offline_welcome.wav" 44100
                                          [x01; x02]).
  - apply empty_world_writable.
  - exact I.
  - lia.
  - cbn. lia.
Defined.

Lemma wav_encoder_round_trip_witness :
  exists (out : list byte) (h : wav_header),
    fs (snd (wav_encoder "nap.wav" 22050 [x10; x20] empty_world)) !! "nap.wav" = Some out
    /\ parse_wav_header out = Some h
    /\ sampleRateHz h = 22050
    /\ channelCount h = 1
    /\ bitsPerSample h = 16
    /\ dataSize h = Z.of_nat 2.
Proof.
  apply (wav_encoder_round_trip empty_world "nap.wav" 22050 [x10; x20]).
  - apply empty_world_writable.
  - exact I.
  - lia.
  - cbn. lia.
Defined.

Lemma wav_encoder_byte_rate_block_align_witness :
  exists out : list byte,
    fs (snd (wav_encoder "nap.wav" 44100 [x10; x20] empty_world)) !! "nap.wav" = Some out
    /\ le_uint (slice 28 4 out) = 44100 * 1 * (16 / 8)
    /\ le_uint (slice 32 2 out) = 1 * (16 / 8).
Proof.
  apply (wav_encoder_byte_rate_block_align empty_world "nap.wav" 44100 [x10; x20]).
  vm_compute. reflexivity.
Defined.

Lemma wav_encoder_empty_buffer_witness :
  exists (out : list byte) (h : wav_header),
    fst (wav_encoder "nap.wav" 44100 [] empty_world) = inr tt
    /\ fs (snd (wav_encoder "nap.wav" 44100 [] empty_world)) !! "nap.wav" = Some out
    /\ length out = 44%nat
    /\ parse_wav_header out = Some h
    /\ riff_size h = 36
    /\ fmt_size h = 16
    /\ audio_format h = 1
    /\ channelCount h = 1
    /\ sampleRateHz h = 44100
    /\ byteRate h = 44100 * 1 * (16 / 8)
    /\ blockAlign h = 1 * (16 / 8)
    /\ bitsPerSample h = 16
    /\ dataSize h = 0
    /\ le_uint (slice 40 4 out) = 0.
Proof.
  apply (wav_encoder_empty_buffer empty_world "nap.wav" 44100).
  - apply empty_world_writable.
  - exact I.
  - lia.
Defined.

(** Three bytes: not a multiple of the block alignment, 2. *)
Lemma wav_encoder_no_alignment_check_witness :
  Z.of_nat (length [x01; x02; x03]) mod block_align <> 0
  /\ exists out : list byte,
      fst (wav_encoder "nap.wav" 44100 [x01; x02; x03] empty_world) = inr tt
      /\ fs (snd (wav_encoder "nap.wav" 44100 [x01; x02; x03] empty_world))
           !! "nap.wav" = Some out
      /\ Z.of_nat (length out) = Z.of_nat 3 + 44
      /\ skipn 44 out = [x01; x02; x03].
Proof.
  split; [vm_compute; discriminate|].
  apply (wav_encoder_no_alignment_check empty_world "nap.wav" 44100 [x01; x02; x03]).
  - apply empty_world_writable.
  - exact I.
  - lia.
  - cbn. lia.
Defined.

(** * The claims about the request and the process *)

Section Request.

Variable key : string.
Variable requests_post :
  string -> list (string * string) -> request_data -> Z -> exn + response.
Variable base64_b64decode : string -> exn + list byte.

Lemma generate_wav_transport (text out : string) (sample_rate : Z) (w : world)
    (e : exn) :
  reply key requests_post text sample_rate = inl e ->
  generate_wav key requests_post base64_b64decode text out sample_rate w
  = (inl e, log EvPost w).
Proof.
  unfold reply. intros H. unfold generate_wav, bind, post. now rewrite H.
Qed.

Lemma generate_wav_status (text out : string) (sample_rate : Z) (w : world)
    (r : response) :
  reply key requests_post text sample_rate = inr r ->
  status_code r <> 200 ->
  generate_wav key requests_post base64_b64decode text out sample_rate w
  = (inr false, log EvPost w).
Proof.
  unfold reply. intros H Hs. unfold generate_wav, bind, post. rewrite H.
  destruct (Z.eqb_spec (status_code r) 200) as [E|_]; [contradiction|].
  reflexivity.
Qed.

Lemma generate_wav_payload (text out : string) (sample_rate : Z) (w : world)
    (r : response) :
  reply key requests_post text sample_rate = inr r ->
  status_code r = 200 ->
  ~ has_audioContent r ->
  exists res : exn + bool,
    generate_wav key requests_post base64_b64decode text out sample_rate w
    = (res, log EvJson (log EvPost w))
    /\ res <> inr true.
Proof.
  unfold reply. intros H Hs Hno. unfold generate_wav, bind, post. rewrite H.
  destruct (Z.eqb_spec (status_code r) 200) as [_|E]; [|contradiction].
  cbn [negb]. unfold json_of, has_audioContent in *.
  destruct (response_json r) as [e|j].
  { eexists. split; [reflexivity|discriminate]. }
  destruct j as [ |b|n|s|items|fields]; cbn [lift py_in].
  - eexists. split; [reflexivity|discriminate].
  - eexists. split; [reflexivity|discriminate].
  - eexists. split; [reflexivity|discriminate].
  - destruct (String.index 0 "audioContent" s);
      eexists; (split; [reflexivity|discriminate]).
  - destruct (existsb _ items);
      eexists; (split; [reflexivity|discriminate]).
  - rewrite bool_decide_eq_false_2 by exact Hno.
    eexists. split; [reflexivity|discriminate].
Qed.

(** Every failed request: a signal other than [True], and a world in
    which only the calls were logged. *)
Lemma generate_wav_failure (text out : string) (sample_rate : Z) (w : world) :
  request_failure (reply key requests_post text sample_rate) ->
  exists (res : exn + bool) (evs : list event),
    generate_wav key requests_post base64_b64decode text out sample_rate w
    = (res, World (fs w) (open_files w) (unwritable w) (wr_budget w)
                  (evs ++ trace w))
    /\ res <> inr true
    /\ (evs = [EvPost] \/ evs = [EvJson; EvPost]).
Proof.
  intros Hfail. inversion Hfail as [e He|r Hs Hr|r Hs Hno Hr]; symmetry in He || symmetry in Hr.
  - exists (inl e), [EvPost].
    rewrite (generate_wav_transport _ _ _ _ _ He).
    split; [reflexivity|]. split; [discriminate|]. now left.
  - exists (inr false), [EvPost].
    rewrite (generate_wav_status _ _ _ _ _ Hr Hs).
    split; [reflexivity|]. split; [discriminate|]. now left.
  - destruct (generate_wav_payload text out sample_rate w r Hr Hs Hno)
      as (res & Hrun & Hres).
    exists res, [EvJson; EvPost]. rewrite Hrun.
    split; [reflexivity|]. split; [exact Hres|]. now right.
Qed.

End Request.

(** C5.  When the call completes with status 200 and the body has no
    [audioContent] field, [generate_wav] signals failure, the process
    exits with a non-zero status, and no file is opened or written: the
    only calls made are the post and the JSON parse. *)
Theorem missing_audioContent_exits_nonzero (key : string)
    (requests_post : string -> list (string * string) -> request_data -> Z
                     -> exn + response)
    (base64_b64decode : string -> exn + list byte)
    (argv : list string) (w : world) (r : response) :
  reply key requests_post (argv_text argv) 44100 = inr r ->
  status_code r = 200 ->
  ~ has_audioContent r ->
  fst (generate_wav key requests_post base64_b64decode
                    (argv_text argv) (argv_output_file argv) 44100 w) <> inr true
  /\ fst (main key requests_post base64_b64decode argv w) <> 0
  /\ fs (snd (main key requests_post base64_b64decode argv w)) = fs w
  /\ trace (snd (main key requests_post base64_b64decode argv w))
     = EvJson :: EvPost :: trace w.
Proof.
  intros Hr Hs Hno.
  destruct (generate_wav_payload key requests_post base64_b64decode
              (argv_text argv) (argv_output_file argv) 44100 w r Hr Hs Hno)
    as (res & Hrun & Hres).
  unfold main. rewrite Hrun. cbn [fst snd].
  split; [exact Hres|].
  destruct res as [e|[|]]; cbn [fst snd log fs trace];
    try (repeat split; [lia|..]; reflexivity).
  now contradiction Hres.
Qed.

(** C6.  When the status code of the response is not 200, the process
    exits with a non-zero status, the only call made is the post (the
    body is neither parsed nor base64-decoded, no file is opened), and
    the files are as they were. *)
Theorem non_200_exits_without_decoding (key : string)
    (requests_post : string -> list (string * string) -> request_data -> Z
                     -> exn + response)
    (base64_b64decode : string -> exn + list byte)
    (argv : list string) (w : world) (r : response) :
  reply key requests_post (argv_text argv) 44100 = inr r ->
  status_code r <> 200 ->
  fst (main key requests_post base64_b64decode argv w) <> 0
  /\ trace (snd (main key requests_post base64_b64decode argv w)) = EvPost :: trace w
  /\ fs (snd (main key requests_post base64_b64decode argv w)) = fs w.
Proof.
  intros Hr Hs. unfold main.
  rewrite (generate_wav_status key requests_post base64_b64decode
             (argv_text argv) (argv_output_file argv) 44100 w r Hr Hs).
  cbn. repeat split. lia.
Qed.

(** C8.  In each failure case of the speech request (the call does not
    complete, the status is not 200, the payload field is absent), the
    caller of [generate_wav] gets [False] or an exception, the process
    exits with a non-zero status, and no file is produced: the files are
    unchanged and no open is among the calls made. *)
Theorem request_failure_exits_nonzero (key : string)
    (requests_post : string -> list (string * string) -> request_data -> Z
                     -> exn + response)
    (base64_b64decode : string -> exn + list byte)
    (argv : list string) (w : world) :
  request_failure (reply key requests_post (argv_text argv) 44100) ->
  fst (generate_wav key requests_post base64_b64decode
                    (argv_text argv) (argv_output_file argv) 44100 w) <> inr true
  /\ fst (main key requests_post base64_b64decode argv w) <> 0
  /\ fs (snd (main key requests_post base64_b64decode argv w)) = fs w
  /\ exists evs : list event,
      trace (snd (main key requests_post base64_b64decode argv w)) = evs ++ trace w
      /\ forall p : string, ~ In (EvOpen p) evs.
Proof.
  intros Hfail.
  destruct (generate_wav_failure key requests_post base64_b64decode
              (argv_text argv) (argv_output_file argv) 44100 w Hfail)
    as (res & evs & Hrun & Hres & Hevs).
  unfold main. rewrite Hrun. cbn [fst snd].
  split; [exact Hres|].
  assert (Hno : forall p : string, ~ In (EvOpen p) evs).
  { intros p. destruct Hevs as [-> | ->]; cbn; intuition discriminate. }
  destruct res as [e|[|]]; cbn [fst snd fs trace].
  - split; [lia|]. split; [reflexivity|]. now exists evs.
  - now contradiction Hres.
  - split; [lia|]. split; [reflexivity|]. now exists evs.
Qed.

(** ** Instances *)

Lemma reply_no_field_lacks_audioContent : ~ has_audioContent reply_no_field.
Proof. intros [v Hv]. vm_compute in Hv. discriminate. Defined.

Lemma missing_audioContent_exits_nonzero_witness :
  fst (generate_wav "k" (net_of (inr reply_no_field)) b64_example
                    (argv_text ["generate_wav.py"])
                    (argv_output_file ["generate_wav.py"]) 44100 empty_world)
    <> inr true
  /\ fst (main "k" (net_of (inr reply_no_field)) b64_example
               ["generate_wav.py"] empty_world) <> 0
  /\ fs (snd (main "k" (net_of (inr reply_no_field)) b64_example
                   ["generate_wav.py"] empty_world)) = fs empty_world
  /\ trace (snd (main "k" (net_of (inr reply_no_field)) b64_example
                      ["generate_wav.py"] empty_world))
     = EvJson :: EvPost :: trace empty_world.
Proof.
  apply (missing_audioContent_exits_nonzero "k" (net_of (inr reply_no_field))
           b64_example ["generate_wav.py"] empty_world reply_no_field).
  - reflexivity.
  - reflexivity.
  - exact reply_no_field_lacks_audioContent.
Defined.

Lemma non_200_exits_without_decoding_witness :
  fst (main "k" (net_of (inr reply_403)) b64_example
            ["generate_wav.py"; "Nap time"] empty_world) <> 0
  /\ trace (snd (main "k" (net_of (inr reply_403)) b64_example
                      ["generate_wav.py"; "Nap time"] empty_world))
     = EvPost :: trace empty_world
  /\ fs (snd (main "k" (net_of (inr reply_403)) b64_example
                   ["generate_wav.py"; "Nap time"] empty_world)) = fs empty_world.
Proof.
  apply (non_200_exits_without_decoding "k" (net_of (inr reply_403)) b64_example
           ["generate_wav.py"; "Nap time"] empty_world reply_403).
  - reflexivity.
  - cbn. lia.
Defined.

Lemma request_failure_exits_nonzero_witness :
  fst (generate_wav "k" (net_of (inl RequestException)) b64_example
                    (argv_text ["generate_wav.py"])
                    (argv_output_file ["generate_wav.py"]) 44100 empty_world)
    <> inr true
  /\ fst (main "k" (net_of (inl RequestException)) b64_example
               ["generate_wav.py"] empty_world) <> 0
  /\ fs (snd (main "k" (net_of (inl RequestException)) b64_example
                   ["generate_wav.py"] empty_world)) = fs empty_world
  /\ exists evs : list event,
      trace (snd (main "k" (net_of (inl RequestException)) b64_example
                       ["generate_wav.py"] empty_world)) = evs ++ trace empty_world
      /\ forall p : string, ~ In (EvOpen p) evs.
Proof.
  apply (request_failure_exits_nonzero "k" (net_of (inl RequestException))
           b64_example ["generate_wav.py"] empty_world).
  apply transport_failure.
Defined.

(** The success path, for comparison, in a run whose diagnostics are
    printed without error: status 200 and a payload give exit status 0,
    the default output file with header and payload, and no handle left
    open. *)
Example main_success :
  fst (main "k" (net_of (inr reply_ok)) b64_example ["generate_wav.py"] empty_world) = 0
  /\ fs (snd (main "k" (net_of (inr reply_ok)) b64_example ["generate_wav.py"]
                   empty_world)) !! "offline_welcome.wav"
     = Some (wav_image 44100 [x00; x01; x02])
  /\ open_files (snd (main "k" (net_of (inr reply_ok)) b64_example
                           ["generate_wav.py"] empty_world)) = [].
Proof. vm_compute. repeat split; reflexivity. Qed.

(** * The claim about the write operation *)


(** * Further properties of the code *)

(** ** Little-endian fields, both ways *)

Lemma Z_of_byte_range (b : byte) : 0 <= Z_of_byte b < 256.
Proof.
  unfold Z_of_byte. pose proof (Byte.to_N_bounded b). lia.
Qed.

Lemma byte_of_Z_of_byte (b : byte) : byte_of_Z (Z_of_byte b) = b.
Proof.
  unfold byte_of_Z. pose proof (Z_of_byte_range b) as Hr.
  rewrite Z.mod_small by exact Hr.
  unfold Z_of_byte. rewrite N2Z.id, Byte.of_to_N. reflexivity.
Qed.

Lemma le_uint_range (bs : list byte) :
  0 <= le_uint bs < 2 ^ (8 * Z.of_nat (length bs)).
Proof.
  induction bs as [|b bs IH].
  - cbn. lia.
  - cbn [le_uint length]. pose proof (Z_of_byte_range b) as Hb.
    replace (8 * Z.of_nat (S (length bs))) with (8 + 8 * Z.of_nat (length bs)) by lia.
    rewrite Z.pow_add_r by lia. change (2 ^ 8) with 256. nia.
Qed.

Lemma le_bytes_le_uint (bs : list byte) : le_bytes (length bs) (le_uint bs) = bs.
Proof.
  induction bs as [|b bs IH]; [reflexivity|].
  cbn [length le_uint le_bytes].
  pose proof (Z_of_byte_range b) as Hb.
  change 255 with (Z.ones 8). rewrite Z.land_ones by lia.
  rewrite Z.shiftr_div_pow2 by lia. change (2 ^ 8) with 256.
  replace ((Z_of_byte b + 256 * le_uint bs) mod 256) with (Z_of_byte b).
  2:{ apply (Z.mod_unique_pos _ 256 (le_uint bs)); lia. }
  replace ((Z_of_byte b + 256 * le_uint bs) / 256) with (le_uint bs).
  2:{ apply (Z.div_unique_pos _ 256 (le_uint bs) (Z_of_byte b)); lia. }
  now rewrite byte_of_Z_of_byte, IH.
Qed.

(** X1.  [struct.pack] with the formats [<I] and [<H] returns exactly
    the four (two) bytes whose little-endian value is the argument, and
    it raises exactly when the argument is outside the range of the
    format. *)
Theorem struct_pack_characterised (v : Z) (x : list byte) :
  (struct_pack_I v = inr x <->
     0 <= v <= 4294967295 /\ length x = 4%nat /\ le_uint x = v)
  /\ (struct_pack_I v = inl StructError <-> v < 0 \/ 4294967295 < v)
  /\ (struct_pack_H v = inr x <->
     0 <= v <= 65535 /\ length x = 2%nat /\ le_uint x = v)
  /\ (struct_pack_H v = inl StructError <-> v < 0 \/ 65535 < v).
Proof.
  split; [|split; [|split]].
  - split.
    + intros H. apply struct_pack_I_inr in H as (Hv & _ & Hl & Hu).
      change (2 ^ 32) with 4294967296 in Hv. repeat split; auto; lia.
    + intros (Hv & Hl & Hu). rewrite struct_pack_I_ok
        by (change (2 ^ 32) with 4294967296; lia).
      f_equal. rewrite <- Hu, <- Hl. apply le_bytes_le_uint.
  - unfold struct_pack_I.
    destruct (Z.leb_spec 0 v); destruct (Z.leb_spec v 4294967295); cbn [andb];
      split; intros Hx; try discriminate; try reflexivity; lia.
  - split.
    + intros H. apply struct_pack_H_inr in H as (Hv & _ & Hl & Hu).
      change (2 ^ 16) with 65536 in Hv. repeat split; auto; lia.
    + intros (Hv & Hl & Hu). unfold struct_pack_H.
      destruct (Z.leb_spec 0 v); destruct (Z.leb_spec v 65535); cbn [andb];
        try lia.
      f_equal. rewrite <- Hu, <- Hl. apply le_bytes_le_uint.
  - unfold struct_pack_H.
    destruct (Z.leb_spec 0 v); destruct (Z.leb_spec v 65535); cbn [andb];
      split; intros Hx; try discriminate; try reflexivity; lia.
Qed.

(** ** Runs of writes: where they stop and what they cost *)

Lemma accepts_step (n k : nat) (w w1 : world) :
  wr_budget w = Some (S k) -> wr_budget w1 = Some k ->
  accepts (S n) w -> accepts n w1.
Proof. unfold accepts. intros -> ->. lia. Qed.

(** A chunk that cannot be packed stops the run: the chunks before it
    are in the file, the exception is the one of the pack. *)
Lemma write_all_stops (f : handle) (e : exn) (rest : list (exn + list byte))
    (good : list (list byte)) :
  forall (w : world) (c0 : list byte),
    existsb (String.eqb f) (open_files w) = true ->
    fs w !! f = Some c0 ->
    accepts (length good) w ->
    fst (write_all f (map inr good ++ inl e :: rest) w) = inl e
    /\ fs (snd (write_all f (map inr good ++ inl e :: rest) w))
       = <[f := c0 ++ concat good]> (fs w)
    /\ open_files (snd (write_all f (map inr good ++ inl e :: rest) w))
       = open_files w.
Proof.
  induction good as [|x good IH]; intros w c0 Hopen Hfile Hacc.
  - cbn [map app concat]. rewrite write_all_cons. unfold bind.
    rewrite (write_packed_cases f (inl e) w c0 Hopen Hfile). cbn.
    now rewrite app_nil_r, insert_id.
  - cbn [map app concat]. rewrite write_all_cons. unfold bind.
    pose proof (write_packed_cases f (inr x) w c0 Hopen Hfile) as Hstep.
    cbn beta iota in Hstep.
    destruct (wr_budget w) as [[|k]|] eqn:Hb; rewrite Hstep.
    + unfold accepts in Hacc. rewrite Hb in Hacc. cbn in Hacc. lia.
    + match goal with |- context [write_all f _ ?w'] => set (w1 := w') end.
      destruct (IH w1 (c0 ++ x)) as (Hr & Hfs & Hof).
      { exact Hopen. }
      { subst w1. cbn. apply lookup_insert_eq. }
      { apply (accepts_step _ k w); [exact Hb|reflexivity|exact Hacc]. }
      rewrite Hr, Hfs, Hof. subst w1. cbn [fs open_files].
      now rewrite insert_insert_eq, app_assoc.
    + match goal with |- context [write_all f _ ?w'] => set (w1 := w') end.
      destruct (IH w1 (c0 ++ x)) as (Hr & Hfs & Hof).
      { exact Hopen. }
      { subst w1. cbn. apply lookup_insert_eq. }
      { unfold accepts. subst w1. cbn. exact I. }
      rewrite Hr, Hfs, Hof. subst w1. cbn [fs open_files].
      now rewrite insert_insert_eq, app_assoc.
Qed.

(** A run that returns made one write per chunk, and the disk had room
    for all of them. *)
Lemma write_all_success_effects (f : handle) (chunks : list (exn + list byte)) :
  forall (w : world) (c0 : list byte),
    existsb (String.eqb f) (open_files w) = true ->
    fs w !! f = Some c0 ->
    fst (write_all f chunks w) = inr tt ->
    trace (snd (write_all f chunks w))
    = repeat (EvWrite f) (length chunks) ++ trace w
    /\ wr_budget (snd (write_all f chunks w))
       = (fun k => (k - length chunks)%nat) <$> wr_budget w
    /\ accepts (length chunks) w.
Proof.
  induction chunks as [|c cs IH]; intros w c0 Hopen Hfile Hret.
  - cbn. split; [reflexivity|]. split.
    + destruct (wr_budget w) as [k|]; cbn; [f_equal; lia|reflexivity].
    + unfold accepts. destruct (wr_budget w); [lia|exact I].
  - revert Hret. rewrite write_all_cons. unfold bind.
    pose proof (write_packed_cases f c w c0 Hopen Hfile) as Hstep.
    destruct c as [e|x]; [rewrite Hstep; discriminate|].
    destruct (wr_budget w) as [[|k]|] eqn:Hb; rewrite Hstep;
      [discriminate| |].
    + match goal with |- context [write_all f _ ?w'] => set (w1 := w') end.
      intros Hret.
      destruct (IH w1 (c0 ++ x)) as (Htr & Hbu & Hacc).
      { exact Hopen. }
      { subst w1. cbn. apply lookup_insert_eq. }
      { exact Hret. }
      rewrite Htr, Hbu. subst w1. cbn [trace wr_budget length repeat].
      split; [|split].
      * rewrite repeat_cons, <- app_assoc; reflexivity.
      * cbn; f_equal; lia.
      * unfold accepts in *. rewrite Hb. cbn in Hacc. lia.
    + match goal with |- context [write_all f _ ?w'] => set (w1 := w') end.
      intros Hret.
      destruct (IH w1 (c0 ++ x)) as (Htr & Hbu & Hacc).
      { exact Hopen. }
      { subst w1. cbn. apply lookup_insert_eq. }
      { exact Hret. }
      rewrite Htr, Hbu. subst w1. cbn [trace wr_budget length repeat].
      split; [|split].
      * rewrite repeat_cons, <- app_assoc; reflexivity.
      * reflexivity.
      * unfold accepts. now rewrite Hb.
Qed.

(** ** The encoder, run by run *)

Lemma wav_encoder_unfold (w : world) (path : string) (sample_rate : Z)
    (audio_data : list byte) :
  path ∉ unwritable w ->
  wav_encoder path sample_rate audio_data w
  = (fst (write_all path (wav_chunks sample_rate audio_data) (opened path w)),
     snd (f_close path
            (snd (write_all path (wav_chunks sample_rate audio_data)
                            (opened path w))))).
Proof.
  intros Hout. unfold wav_encoder, with_open, py_open.
  rewrite bool_decide_eq_false_2 by exact Hout.
  rewrite wav_body_write_all. fold (opened path w).
  now destruct (write_all path (wav_chunks sample_rate audio_data) (opened path w)).
Qed.

Lemma opened_ready (path : string) (w : world) :
  existsb (String.eqb path) (open_files (opened path w)) = true
  /\ fs (opened path w) !! path = Some [].
Proof.
  split; [apply existsb_eqb_head|]. cbn. apply lookup_insert_eq.
Qed.

Lemma wav_chunks_fields (sample_rate : Z) (audio_data : list byte) :
  0 <= sample_rate < 2 ^ 31 ->
  Z.of_nat (length audio_data) + 36 < 2 ^ 32 ->
  wav_chunks sample_rate audio_data = map inr (wav_fields sample_rate audio_data).
Proof.
  intros Hsr HL. unfold wav_chunks, wav_fields.
  change (2 ^ 31) with 2147483648 in Hsr. change (2 ^ 32) with 4294967296 in HL.
  rewrite (struct_pack_I_ok (file_size audio_data)),
          (struct_pack_I_ok sample_rate),
          (struct_pack_I_ok (byte_rate sample_rate)),
          (struct_pack_I_ok (data_size audio_data)); [reflexivity| | | |];
    unfold file_size, data_size, byte_rate, num_channels, bits_per_sample;
    change (2 ^ 32) with 4294967296; change (16 / 8) with 2; lia.
Qed.

Lemma concat_wav_fields (sample_rate : Z) (audio_data : list byte) :
  concat (wav_fields sample_rate audio_data) = wav_image sample_rate audio_data.
Proof.
  unfold wav_fields, wav_image. cbn [concat]. now rewrite app_nil_r.
Qed.

(** The files that a run leaves, whatever its outcome: only the output
    path can differ, and the environment is as before. *)
Lemma wav_encoder_frame (w : world) (path : string) (sample_rate : Z)
    (audio_data : list byte) :
  (forall q : string, q <> path ->
     fs (snd (wav_encoder path sample_rate audio_data w)) !! q = fs w !! q)
  /\ unwritable (snd (wav_encoder path sample_rate audio_data w)) = unwritable w
  /\ open_files (snd (wav_encoder path sample_rate audio_data w)) = open_files w.
Proof.
  destruct (decide (path ∈ unwritable w)) as [Hin|Hout].
  - rewrite (wav_encoder_refused w path sample_rate audio_data Hin). cbn. auto.
  - destruct (wav_encoder_spec w path sample_rate audio_data Hout)
      as (wr & Hfs & Hof & _).
    split; [|split; [|exact Hof]].
    + intros q Hq. rewrite Hfs. now apply lookup_insert_ne.
    + rewrite wav_encoder_unfold by exact Hout.
      destruct (opened_ready path w) as [Ho Hf].
      destruct (write_all_spec path (wav_chunks sample_rate audio_data)
                  (opened path w) [] Ho Hf) as (x & _ & _ & Hu & _).
      cbn [f_close snd unwritable]. exact Hu.
Qed.

(** X2.  On a path that can be opened, the encoder returns exactly when
    the sample rate is in 0 .. 2^31 - 1, the buffer length L satisfies
    L + 36 < 2^32, and the disk takes fourteen writes; in every other
    case it raises. *)
Theorem wav_encoder_returns_iff (w : world) (path : string) (sample_rate : Z)
    (pcm : list byte) :
  path ∉ unwritable w ->
  (fst (wav_encoder path sample_rate pcm w) = inr tt
   <-> 0 <= sample_rate < 2 ^ 31
       /\ Z.of_nat (length pcm) + 36 < 2 ^ 32
       /\ accepts 14 w).
Proof.
  intros Hout. split.
  - intros Hret.
    destruct (wav_encoder_returned w path sample_rate pcm Hret) as (_ & R1 & _ & R3).
    unfold file_size, data_size in R1.
    unfold byte_rate, num_channels, bits_per_sample in R3.
    change (16 / 8) with 2 in R3.
    change (2 ^ 32) with 4294967296 in *. change (2 ^ 31) with 2147483648.
    split; [lia|]. split; [lia|].
    rewrite wav_encoder_unfold in Hret by exact Hout. cbn [fst] in Hret.
    destruct (opened_ready path w) as [Ho Hf].
    destruct (write_all_success_effects path (wav_chunks sample_rate pcm)
                (opened path w) [] Ho Hf Hret) as (_ & _ & Hacc).
    exact Hacc.
  - intros (Hsr & HL & Hacc).
    now apply wav_encoder_returns.
Qed.

(** X3.  A run of the encoder that returns consists of one open,
    fourteen writes and one close, in this order; it uses up fourteen
    writes of the disk, puts the image at the output path and leaves no
    handle open. *)
Theorem wav_encoder_success_effects (w : world) (path : string)
    (sample_rate : Z) (pcm : list byte) :
  fst (wav_encoder path sample_rate pcm w) = inr tt ->
  trace (snd (wav_encoder path sample_rate pcm w))
  = EvClose path :: repeat (EvWrite path) 14 ++ EvOpen path :: trace w
  /\ wr_budget (snd (wav_encoder path sample_rate pcm w))
     = (fun k => (k - 14)%nat) <$> wr_budget w
  /\ fs (snd (wav_encoder path sample_rate pcm w))
     = <[path := wav_image sample_rate pcm]> (fs w)
  /\ open_files (snd (wav_encoder path sample_rate pcm w)) = open_files w.
Proof.
  intros Hret.
  destruct (decide (path ∈ unwritable w)) as [Hin|Hout].
  { rewrite wav_encoder_refused in Hret by exact Hin. discriminate. }
  destruct (wav_encoder_spec w path sample_rate pcm Hout)
    as (wr & Hfs & Hof & _ & Hok & _).
  destruct (Hok Hret) as [-> Hall].
  destruct (wav_chunks_packed _ _ Hall) as (Himg & _).
  rewrite Hfs, Himg, Hof.
  rewrite wav_encoder_unfold in * by exact Hout. cbn [fst] in Hret.
  destruct (opened_ready path w) as [Ho Hf].
  destruct (write_all_success_effects path (wav_chunks sample_rate pcm)
              (opened path w) [] Ho Hf Hret) as (Htr & Hbu & _).
  cbn [f_close snd trace wr_budget]. rewrite Htr, Hbu.
  repeat split; reflexivity.
Qed.

Lemma struct_pack_I_outside (v : Z) :
  v < 0 \/ 2 ^ 32 <= v -> struct_pack_I v = inl StructError.
Proof.
  intros Hv. change (2 ^ 32) with 4294967296 in Hv. unfold struct_pack_I.
  destruct (Z.leb_spec 0 v); destruct (Z.leb_spec v 4294967295);
    cbn [andb]; try reflexivity; lia.
Qed.

(** The chunk list when the sample rate is the first value that cannot
    be packed, or when twice the sample rate is. *)
Lemma wav_chunks_bad_rate (sample_rate : Z) (audio_data : list byte) :
  Z.of_nat (length audio_data) + 36 < 2 ^ 32 ->
  sample_rate < 0 \/ 2 ^ 31 <= sample_rate ->
  exists rest : list (exn + list byte),
    wav_chunks sample_rate audio_data
    = map inr (take (if (0 <=? sample_rate) && (sample_rate <? 2 ^ 32)
                     then 8%nat else 7%nat)
                    (wav_fields sample_rate audio_data))
      ++ inl StructError :: rest.
Proof.
  intros HL Hsr. unfold wav_chunks, wav_fields.
  change (2 ^ 31) with 2147483648 in Hsr. change (2 ^ 32) with 4294967296 in *.
  rewrite (struct_pack_I_ok (file_size audio_data))
    by (unfold file_size, data_size; change (2 ^ 32) with 4294967296; lia).
  destruct (Z.leb_spec 0 sample_rate) as [H0|H0];
    destruct (Z.ltb_spec sample_rate 4294967296) as [H1|H1]; cbn [andb take].
  - rewrite (struct_pack_I_ok sample_rate)
      by (change (2 ^ 32) with 4294967296; lia).
    rewrite (struct_pack_I_outside (byte_rate sample_rate)).
    + eexists. reflexivity.
    + right. unfold byte_rate, num_channels, bits_per_sample.
      change (16 / 8) with 2. change (2 ^ 32) with 4294967296. lia.
  - rewrite (struct_pack_I_outside sample_rate)
      by (right; change (2 ^ 32) with 4294967296; lia).
    eexists. reflexivity.
  - rewrite (struct_pack_I_outside sample_rate) by (left; lia).
    eexists. reflexivity.
  - lia.
Qed.

(** X4.  A sample rate that is negative or at least 2^31 makes the
    encoder raise [struct.error] part-way (buffer length in range, path
    and disk in order): the handle is released and the file is left
    with the first seven fields, and the sample-rate field as the
    eighth when the rate itself still fits 32 bits. *)
Theorem wav_encoder_bad_sample_rate (w : world) (path : string)
    (sample_rate : Z) (pcm : list byte) :
  path ∉ unwritable w -> accepts 8 w ->
  Z.of_nat (length pcm) + 36 < 2 ^ 32 ->
  sample_rate < 0 \/ 2 ^ 31 <= sample_rate ->
  fst (wav_encoder path sample_rate pcm w) = inl StructError
  /\ open_files (snd (wav_encoder path sample_rate pcm w)) = open_files w
  /\ fs (snd (wav_encoder path sample_rate pcm w))
     = <[path := concat (take (if (0 <=? sample_rate) && (sample_rate <? 2 ^ 32)
                               then 8%nat else 7%nat)
                              (wav_fields sample_rate pcm))]> (fs w).
Proof.
  intros Hout Hacc HL Hsr.
  destruct (wav_chunks_bad_rate sample_rate pcm HL Hsr) as (rest & Hchunks).
  destruct (wav_encoder_frame w path sample_rate pcm) as (_ & _ & Hof).
  split; [|split; [exact Hof|]];
    rewrite wav_encoder_unfold by exact Hout; rewrite Hchunks;
    destruct (opened_ready path w) as [Ho Hf];
    match goal with
    | |- context [write_all path (map inr ?g ++ _) _] =>
        destruct (write_all_stops path StructError rest g (opened path w) []
                    Ho Hf) as (Hr & Hfs & _)
    end;
    try (unfold accepts in *; cbn [opened wr_budget];
         destruct (wr_budget w); [|exact I];
         destruct ((0 <=? sample_rate) && (sample_rate <? 2 ^ 32));
         cbn; lia).
  - exact Hr.
  - cbn [f_close snd fs]. rewrite Hfs. cbn [opened fs app].
    now rewrite insert_insert_eq.
Qed.

Lemma write_all_budget_none (f : handle) (chunks : list (exn + list byte)) :
  forall w : world,
    wr_budget w = None -> wr_budget (snd (write_all f chunks w)) = None.
Proof.
  induction chunks as [|c cs IH]; intros w Hb; [exact Hb|].
  rewrite write_all_cons. unfold bind, write_packed, bind, lift.
  destruct c as [e|x]; [exact Hb|].
  unfold f_write. destruct (negb (existsb (String.eqb f) (open_files w)));
    [exact Hb|].
  rewrite Hb. apply IH. reflexivity.
Qed.

Lemma wav_encoder_success_fs (w : world) (path : string) (sample_rate : Z)
    (audio_data : list byte) :
  fst (wav_encoder path sample_rate audio_data w) = inr tt ->
  fs (snd (wav_encoder path sample_rate audio_data w))
  = <[path := wav_image sample_rate audio_data]> (fs w).
Proof.
  intros Hret.
  destruct (decide (path ∈ unwritable w)) as [Hin|Hout].
  { rewrite wav_encoder_refused in Hret by exact Hin. discriminate. }
  destruct (wav_encoder_spec w path sample_rate audio_data Hout)
    as (wr & Hfs & _ & _ & Hok & _).
  destruct (Hok Hret) as [-> Hall].
  destruct (wav_chunks_packed _ _ Hall) as (Himg & _).
  now rewrite Hfs, Himg.
Qed.

(** X6.  The last writer wins: when the encoder runs twice on the same
    path (no disk limit, second set of values in range), the file ends
    up as the image of the second run, whatever the first run wrote and
    whether it returned or raised; the other files are those of the
    start. *)
Theorem wav_encoder_overwrites (w : world) (path : string)
    (sample_rate1 sample_rate2 : Z) (pcm1 pcm2 : list byte) :
  path ∉ unwritable w ->
  wr_budget w = None ->
  0 <= sample_rate2 < 2 ^ 31 ->
  Z.of_nat (length pcm2) + 36 < 2 ^ 32 ->
  fst (wav_encoder path sample_rate2 pcm2
                   (snd (wav_encoder path sample_rate1 pcm1 w))) = inr tt
  /\ fs (snd (wav_encoder path sample_rate2 pcm2
                          (snd (wav_encoder path sample_rate1 pcm1 w))))
     = <[path := wav_image sample_rate2 pcm2]> (fs w).
Proof.
  intros Hout Hb Hsr HL.
  set (w1 := snd (wav_encoder path sample_rate1 pcm1 w)).
  destruct (wav_encoder_frame w path sample_rate1 pcm1) as (_ & Hu & _).
  fold w1 in Hu.
  assert (Hout1 : path ∉ unwritable w1) by now rewrite Hu.
  assert (Hb1 : wr_budget w1 = None).
  { subst w1. rewrite wav_encoder_unfold by exact Hout.
    cbn [f_close snd wr_budget]. now apply write_all_budget_none. }
  assert (Hacc1 : accepts 14 w1) by (unfold accepts; now rewrite Hb1).
  destruct (wav_encoder_returns w1 path sample_rate2 pcm2 Hout1 Hacc1 Hsr HL)
    as [Hret _].
  split; [exact Hret|].
  rewrite (wav_encoder_success_fs w1 path sample_rate2 pcm2 Hret).
  destruct (wav_encoder_spec w path sample_rate1 pcm1 Hout) as (wr & Hfs & _).
  fold w1 in Hfs. rewrite Hfs. now rewrite insert_insert_eq.
Qed.

(** X7.  The file determines the inputs: two runs of the encoder that
    return and leave the same bytes were given the same sample rate and
    the same PCM buffer. *)
Theorem wav_file_determines_inputs (w1 w2 : world) (path1 path2 : string)
    (sample_rate1 sample_rate2 : Z) (pcm1 pcm2 : list byte) :
  fst (wav_encoder path1 sample_rate1 pcm1 w1) = inr tt ->
  fst (wav_encoder path2 sample_rate2 pcm2 w2) = inr tt ->
  fs (snd (wav_encoder path1 sample_rate1 pcm1 w1)) !! path1
  = fs (snd (wav_encoder path2 sample_rate2 pcm2 w2)) !! path2 ->
  sample_rate1 = sample_rate2 /\ pcm1 = pcm2.
Proof.
  intros H1 H2 Heq.
  destruct (wav_encoder_returned _ _ _ _ H1) as (F1 & _ & R1 & _).
  destruct (wav_encoder_returned _ _ _ _ H2) as (F2 & _ & R2 & _).
  rewrite F1, F2 in Heq.
  assert (Himg : wav_image sample_rate1 pcm1 = wav_image sample_rate2 pcm2)
    by congruence.
  destruct (wav_image_fields sample_rate1 pcm1)
    as (_ & _ & _ & _ & _ & _ & _ & S1 & _ & _ & _ & _ & _ & P1).
  destruct (wav_image_fields sample_rate2 pcm2)
    as (_ & _ & _ & _ & _ & _ & _ & S2 & _ & _ & _ & _ & _ & P2).
  rewrite Himg in S1, P1. split.
  - rewrite <- (le_uint_le_bytes 4 sample_rate1) by exact R1.
    rewrite <- (le_uint_le_bytes 4 sample_rate2) by exact R2.
    now rewrite <- S1, <- S2.
  - now rewrite <- P1, <- P2.
Qed.

(** ** The whole script *)

Section Process.

Variable key : string.
Variable requests_post :
  string -> list (string * string) -> request_data -> Z -> exn + response.
Variable base64_b64decode : string -> exn + list byte.

Lemma main_of_generate_wav (argv : list string) (w : world) :
  main key requests_post base64_b64decode argv w
  = (match fst (generate_wav key requests_post base64_b64decode
                             (argv_text argv) (argv_output_file argv) 44100 w) with
     | inr true => 0
     | _ => 1
     end,
     snd (generate_wav key requests_post base64_b64decode
                       (argv_text argv) (argv_output_file argv) 44100 w)).
Proof.
  unfold main.
  destruct (generate_wav key requests_post base64_b64decode
              (argv_text argv) (argv_output_file argv) 44100 w)
    as [[e|[|]] w']; reflexivity.
Qed.

Lemma audioContent_of_None (r : response) :
  audioContent_of r = None -> ~ has_audioContent r.
Proof.
  unfold audioContent_of, has_audioContent.
  destruct (response_json r) as [e|[ | | | | |fields]]; auto.
  intros -> [v Hv]. discriminate.
Qed.

(** With status 200 and the key present in a JSON object, the rest of
    [generate_wav] is the decode followed by the encoder. *)
Lemma generate_wav_payload_present (text out : string) (sample_rate : Z)
    (w : world) (r : response) (v : json) :
  reply key requests_post text sample_rate = inr r ->
  status_code r = 200 ->
  audioContent_of r = Some v ->
  generate_wav key requests_post base64_b64decode text out sample_rate w
  = bind (b64decode base64_b64decode v)
         (fun audio_data =>
            bind (wav_encoder out sample_rate audio_data) (fun _ => ret true))
         (log EvJson (log EvPost w)).
Proof.
  unfold reply, audioContent_of. intros Hr Hs Hv.
  unfold generate_wav. unfold bind at 1. unfold post. rewrite Hr.
  destruct (Z.eqb_spec (status_code r) 200) as [_|E]; [|contradiction].
  cbn [negb]. unfold bind at 1. unfold json_of.
  destruct (response_json r) as [e|[ | | | | |fields]]; try discriminate.
  unfold bind at 1. cbn [lift py_in].
  rewrite bool_decide_eq_true_2 by (rewrite Hv; eauto).
  cbn [negb]. unfold bind at 1. cbn [lift py_getitem]. rewrite Hv.
  reflexivity.
Qed.

Lemma generate_wav_decoded (text out : string) (sample_rate : Z) (w : world)
    (r : response) (s : string) (pcm : list byte) :
  reply key requests_post text sample_rate = inr r ->
  status_code r = 200 ->
  audioContent_of r = Some (JStr s) ->
  base64_b64decode s = inr pcm ->
  generate_wav key requests_post base64_b64decode text out sample_rate w
  = (match fst (wav_encoder out sample_rate pcm (after_decode w)) with
     | inr _ => inr true
     | inl e => inl e
     end,
     snd (wav_encoder out sample_rate pcm (after_decode w))).
Proof.
  intros Hr Hs Hv Hd.
  rewrite (generate_wav_payload_present text out sample_rate w r _ Hr Hs Hv).
  unfold bind at 1. unfold b64decode. rewrite Hd.
  fold (after_decode w). unfold bind, ret.
  now destruct (wav_encoder out sample_rate pcm (after_decode w)) as [[e|[]] w'].
Qed.

Lemma generate_wav_undecoded (text out : string) (sample_rate : Z) (w : world)
    (r : response) (v : json) (e : exn) :
  reply key requests_post text sample_rate = inr r ->
  status_code r = 200 ->
  audioContent_of r = Some v ->
  match v with JStr s => base64_b64decode s | _ => inl TypeError end = inl e ->
  generate_wav key requests_post base64_b64decode text out sample_rate w
  = (inl e, after_decode w).
Proof.
  intros Hr Hs Hv Hd.
  rewrite (generate_wav_payload_present text out sample_rate w r _ Hr Hs Hv).
  unfold bind at 1. unfold b64decode. now rewrite Hd.
Qed.

(** Every run of [generate_wav] either stops before the encoder, with
    nothing but the trace changed, or is a run of the encoder on the
    decoded payload. *)
Lemma generate_wav_shape (text out : string) (sample_rate : Z) (w : world) :
  (exists (res : exn + bool) (evs : list event),
      generate_wav key requests_post base64_b64decode text out sample_rate w
      = (res, World (fs w) (open_files w) (unwritable w) (wr_budget w)
                    (evs ++ trace w))
      /\ res <> inr true
      /\ forall p : string, ~ In (EvOpen p) evs)
  \/ (exists (r : response) (s : string) (pcm : list byte),
      reply key requests_post text sample_rate = inr r
      /\ status_code r = 200
      /\ audioContent_of r = Some (JStr s)
      /\ base64_b64decode s = inr pcm).
Proof.
  destruct (reply key requests_post text sample_rate) as [e|r] eqn:Hr.
  { left. exists (inl e), [EvPost].
    rewrite (generate_wav_transport _ _ _ _ _ _ _ _ Hr).
    split; [reflexivity|]. split; [discriminate|].
    intros p. cbn. intuition discriminate. }
  destruct (decide (status_code r = 200)) as [Hs|Hs].
  2:{ left. exists (inr false), [EvPost].
      rewrite (generate_wav_status _ _ _ _ _ _ _ _ Hr Hs).
      split; [reflexivity|]. split; [discriminate|].
      intros p. cbn. intuition discriminate. }
  destruct (audioContent_of r) as [v|] eqn:Hv.
  2:{ left.
      destruct (generate_wav_payload key requests_post base64_b64decode
                  text out sample_rate w r Hr Hs (audioContent_of_None r Hv))
        as (res & Hrun & Hres).
      exists res, [EvJson; EvPost]. rewrite Hrun.
      split; [reflexivity|]. split; [exact Hres|].
      intros p. cbn. intuition discriminate. }
  destruct (match v with JStr s => base64_b64decode s | _ => inl TypeError end)
    as [e|pcm] eqn:Hd.
  - left. exists (inl e), [EvB64decode; EvJson; EvPost].
    rewrite (generate_wav_undecoded text out sample_rate w r v e Hr Hs Hv Hd).
    split; [reflexivity|]. split; [discriminate|].
    intros p. cbn. intuition discriminate.
  - right. destruct v as [ | | |s| | ]; try discriminate.
    exists r, s, pcm. auto.
Qed.

End Process.

(** X9.  Exit status 0 is a guarantee: it is only reached when the
    response had status 200 and a string under [audioContent] that
    decoded, and then the output file holds the complete 44100 Hz image
    of the decoded bytes. *)
Theorem exit_0_means_complete_file (key : string)
    (requests_post : string -> list (string * string) -> request_data -> Z
                     -> exn + response)
    (base64_b64decode : string -> exn + list byte)
    (argv : list string) (w : world) :
  fst (main key requests_post base64_b64decode argv w) = 0 ->
  exists (r : response) (s : string) (pcm : list byte),
    reply key requests_post (argv_text argv) 44100 = inr r
    /\ status_code r = 200
    /\ audioContent_of r = Some (JStr s)
    /\ base64_b64decode s = inr pcm
    /\ fs (snd (main key requests_post base64_b64decode argv w))
         !! argv_output_file argv
       = Some (wav_image 44100 pcm).
Proof.
  rewrite main_of_generate_wav. cbn [fst snd]. intros Hexit.
  destruct (generate_wav_shape key requests_post base64_b64decode
              (argv_text argv) (argv_output_file argv) 44100 w)
    as [(res & evs & Hrun & Hres & _)|(r & s & pcm & Hr & Hs & Hv & Hd)].
  - rewrite Hrun in Hexit. cbn [fst] in Hexit.
    destruct res as [e|[|]]; try discriminate. now contradiction Hres.
  - exists r, s, pcm. repeat (split; [assumption|]).
    rewrite (generate_wav_decoded key requests_post base64_b64decode
               (argv_text argv) (argv_output_file argv) 44100 w r s pcm
               Hr Hs Hv Hd) in *.
    cbn [fst snd] in *.
    destruct (fst (wav_encoder (argv_output_file argv) 44100 pcm (after_decode w)))
      as [e|[]] eqn:Hret; [discriminate|].
    now destruct (wav_encoder_returned _ _ _ _ Hret) as (Hfile & _).
Qed.

(** X10.  A value under [audioContent] that is not a string makes
    [base64.b64decode] raise [TypeError]: [generate_wav] raises, the
    exit status is 1, no file is opened and the files are unchanged. *)
Theorem payload_not_a_string (key : string)
    (requests_post : string -> list (string * string) -> request_data -> Z
                     -> exn + response)
    (base64_b64decode : string -> exn + list byte)
    (argv : list string) (w : world) (r : response) (v : json) :
  reply key requests_post (argv_text argv) 44100 = inr r ->
  status_code r = 200 ->
  audioContent_of r = Some v ->
  (forall s : string, v <> JStr s) ->
  fst (generate_wav key requests_post base64_b64decode
                    (argv_text argv) (argv_output_file argv) 44100 w)
  = inl TypeError
  /\ fst (main key requests_post base64_b64decode argv w) = 1
  /\ fs (snd (main key requests_post base64_b64decode argv w)) = fs w
  /\ trace (snd (main key requests_post base64_b64decode argv w))
     = EvB64decode :: EvJson :: EvPost :: trace w.
Proof.
  intros Hr Hs Hv Hns.
  rewrite main_of_generate_wav.
  rewrite (generate_wav_undecoded key requests_post base64_b64decode
             (argv_text argv) (argv_output_file argv) 44100 w r v TypeError
             Hr Hs Hv).
  - repeat split.
  - destruct v as [ | | |s| | ]; try reflexivity. now contradiction (Hns s).
Qed.

(** X11.  A payload string that [base64.b64decode] rejects: the
    exception of the decoder leaves [generate_wav] uncaught, the exit
    status is 1, no file is opened and the files are unchanged. *)
Theorem payload_not_base64 (key : string)
    (requests_post : string -> list (string * string) -> request_data -> Z
                     -> exn + response)
    (base64_b64decode : string -> exn + list byte)
    (argv : list string) (w : world) (r : response) (s : string) (e : exn) :
  reply key requests_post (argv_text argv) 44100 = inr r ->
  status_code r = 200 ->
  audioContent_of r = Some (JStr s) ->
  base64_b64decode s = inl e ->
  fst (generate_wav key requests_post base64_b64decode
                    (argv_text argv) (argv_output_file argv) 44100 w)
  = inl e
  /\ fst (main key requests_post base64_b64decode argv w) = 1
  /\ fs (snd (main key requests_post base64_b64decode argv w)) = fs w
  /\ trace (snd (main key requests_post base64_b64decode argv w))
     = EvB64decode :: EvJson :: EvPost :: trace w.
Proof.
  intros Hr Hs Hv Hd.
  rewrite main_of_generate_wav.
  rewrite (generate_wav_undecoded key requests_post base64_b64decode
             (argv_text argv) (argv_output_file argv) 44100 w r (JStr s) e
             Hr Hs Hv Hd).
  repeat split.
Qed.

(** X12.  The membership test is not a type test: a 200 response whose
    body is a JSON array with the element "audioContent", or a JSON
    string containing that text, passes [in] and then fails at the
    subscript with [TypeError] instead of returning [False]; the exit
    status is 1 and the files are unchanged. *)
Theorem membership_passes_subscript_raises (key : string)
    (requests_post : string -> list (string * string) -> request_data -> Z
                     -> exn + response)
    (base64_b64decode : string -> exn + list byte)
    (argv : list string) (w : world) (r : response) :
  reply key requests_post (argv_text argv) 44100 = inr r ->
  status_code r = 200 ->
  (exists items : list json,
      response_json r = inr (JArr items) /\ In (JStr "audioContent") items)
  \/ (exists (s : string) (n : nat),
      response_json r = inr (JStr s)
      /\ String.index 0 "audioContent" s = Some n) ->
  fst (generate_wav key requests_post base64_b64decode
                    (argv_text argv) (argv_output_file argv) 44100 w)
  = inl TypeError
  /\ fst (main key requests_post base64_b64decode argv w) = 1
  /\ fs (snd (main key requests_post base64_b64decode argv w)) = fs w.
Proof.
  intros Hr Hs Hbody.
  rewrite main_of_generate_wav.
  assert (Hrun : generate_wav key requests_post base64_b64decode
                   (argv_text argv) (argv_output_file argv) 44100 w
                 = (inl TypeError, log EvJson (log EvPost w))).
  { unfold reply in Hr. unfold generate_wav, bind, post. rewrite Hr.
    destruct (Z.eqb_spec (status_code r) 200) as [_|E]; [|contradiction].
    cbn [negb]. unfold json_of.
    destruct Hbody as [(items & -> & Hin)|(s & n & -> & Hidx)]; cbn [lift py_in].
    - replace (existsb _ items) with true; [reflexivity|].
      symmetry. apply existsb_exists. exists (JStr "audioContent").
      split; [exact Hin|reflexivity].
    - rewrite Hidx. reflexivity. }
  rewrite Hrun. repeat split.
Qed.

(** X13.  An output path that cannot be opened, after a good response:
    [open] raises [OSError] out of [generate_wav], the exit status is 1,
    and neither the files nor the open handles change. *)
Theorem output_path_refused (key : string)
    (requests_post : string -> list (string * string) -> request_data -> Z
                     -> exn + response)
    (base64_b64decode : string -> exn + list byte)
    (argv : list string) (w : world) (r : response) (s : string)
    (pcm : list byte) :
  reply key requests_post (argv_text argv) 44100 = inr r ->
  status_code r = 200 ->
  audioContent_of r = Some (JStr s) ->
  base64_b64decode s = inr pcm ->
  argv_output_file argv ∈ unwritable w ->
  fst (generate_wav key requests_post base64_b64decode
                    (argv_text argv) (argv_output_file argv) 44100 w)
  = inl OSError
  /\ fst (main key requests_post base64_b64decode argv w) = 1
  /\ fs (snd (main key requests_post base64_b64decode argv w)) = fs w
  /\ open_files (snd (main key requests_post base64_b64decode argv w))
     = open_files w.
Proof.
  intros Hr Hs Hv Hd Hin.
  rewrite main_of_generate_wav.
  rewrite (generate_wav_decoded key requests_post base64_b64decode
             (argv_text argv) (argv_output_file argv) 44100 w r s pcm Hr Hs Hv Hd).
  rewrite (wav_encoder_refused (after_decode w)) by exact Hin.
  repeat split.
Qed.

(** X14.  Whatever the network answers and whatever happens to the
    write, a run of the script leaves no handle open, does not change
    which paths can be opened, and touches no file other than the one
    at the output path. *)
Theorem main_touches_only_output_file (key : string)
    (requests_post : string -> list (string * string) -> request_data -> Z
                     -> exn + response)
    (base64_b64decode : string -> exn + list byte)
    (argv : list string) (w : world) :
  open_files (snd (main key requests_post base64_b64decode argv w)) = open_files w
  /\ unwritable (snd (main key requests_post base64_b64decode argv w))
     = unwritable w
  /\ forall q : string, q <> argv_output_file argv ->
       fs (snd (main key requests_post base64_b64decode argv w)) !! q = fs w !! q.
Proof.
  rewrite main_of_generate_wav. cbn [snd].
  destruct (generate_wav_shape key requests_post base64_b64decode
              (argv_text argv) (argv_output_file argv) 44100 w)
    as [(res & evs & Hrun & _ & _)|(r & s & pcm & Hr & Hs & Hv & Hd)].
  - rewrite Hrun. cbn. auto.
  - rewrite (generate_wav_decoded key requests_post base64_b64decode
               (argv_text argv) (argv_output_file argv) 44100 w r s pcm
               Hr Hs Hv Hd).
    cbn [snd].
    destruct (wav_encoder_frame (after_decode w) (argv_output_file argv) 44100 pcm)
      as (Hfr & Hu & Hof).
    rewrite Hu, Hof. repeat split. exact Hfr.
Qed.

(** X15.  The network is consulted once, at one request: two networks
    that answer alike to the post of [request_data_for text rate] with
    the JSON content-type header and timeout 15 at the service URL give
    the same run of [generate_wav]. *)
Theorem generate_wav_one_request (key : string)
    (net1 net2 : string -> list (string * string) -> request_data -> Z
                 -> exn + response)
    (base64_b64decode : string -> exn + list byte)
    (text out : string) (sample_rate : Z) (w : world) :
  net1 (GOOGLE_TTS_URL key) [("Content-Type", "application/json")]
       (RequestData text "en-US" "en-US-Standard-D" "NEUTRAL" "LINEAR16"
                    sample_rate) 15
  = net2 (GOOGLE_TTS_URL key) [("Content-Type", "application/json")]
         (RequestData text "en-US" "en-US-Standard-D" "NEUTRAL" "LINEAR16"
                      sample_rate) 15 ->
  generate_wav key net1 base64_b64decode text out sample_rate w
  = generate_wav key net2 base64_b64decode text out sample_rate w.
Proof.
  intros Hsame. unfold generate_wav, bind, post, tts_headers, request_data_for.
  now rewrite Hsame.
Qed.

(** ** Instances of the further properties *)

Lemma wav_encoder_returns_iff_witness :
  fst (wav_encoder "nap.wav" 44100 [x01; x02] empty_world) = inr tt
  <-> 0 <= 44100 < 2 ^ 31
      /\ Z.of_nat (length [x01; x02]) + 36 < 2 ^ 32
      /\ accepts 14 empty_world.
Proof.
  apply (wav_encoder_returns_iff empty_world "nap.wav" 44100 [x01; x02]).
  apply empty_world_writable.
Defined.

Lemma wav_encoder_success_effects_witness :
  trace (snd (wav_encoder "nap.wav" 44100 [x01; x02] empty_world))
  = EvClose "nap.wav" :: repeat (EvWrite "nap.wav") 14
      ++ EvOpen "nap.wav" :: trace empty_world
  /\ wr_budget (snd (wav_encoder "nap.wav" 44100 [x01; x02] empty_world))
     = (fun k => (k - 14)%nat) <$> wr_budget empty_world
  /\ fs (snd (wav_encoder "nap.wav" 44100 [x01; x02] empty_world))
     = <["nap.wav" := wav_image 44100 [x01; x02]]> (fs empty_world)
  /\ open_files (snd (wav_encoder "nap.wav" 44100 [x01; x02] empty_world))
     = open_files empty_world.
Proof.
  apply (wav_encoder_success_effects empty_world "nap.wav" 44100 [x01; x02]).
  vm_compute. reflexivity.
Defined.

Lemma wav_encoder_bad_sample_rate_witness :
  fst (wav_encoder "nap.wav" 2147483648 [x01; x02] empty_world) = inl StructError
  /\ open_files (snd (wav_encoder "nap.wav" 2147483648 [x01; x02] empty_world))
     = open_files empty_world
  /\ fs (snd (wav_encoder "nap.wav" 2147483648 [x01; x02] empty_world))
     = <["nap.wav" :=
          concat (take (if (0 <=? 2147483648) && (2147483648 <? 2 ^ 32)
                        then 8%nat else 7%nat)
                       (wav_fields 2147483648 [x01; x02]))]> (fs empty_world).
Proof.
  apply (wav_encoder_bad_sample_rate empty_world "nap.wav" 2147483648 [x01; x02]).
  - apply empty_world_writable.
  - exact I.
  - cbn. lia.
  - right. lia.
Defined.

Lemma wav_encoder_overwrites_witness :
  fst (wav_encoder "nap.wav" 22050 [x03]
         (snd (wav_encoder "nap.wav" 2147483648 [x01; x02] empty_world))) = inr tt
  /\ fs (snd (wav_encoder "nap.wav" 22050 [x03]
                (snd (wav_encoder "nap.wav" 2147483648 [x01; x02] empty_world))))
     = <["nap.wav" := wav_image 22050 [x03]]> (fs empty_world).
Proof.
  apply (wav_encoder_overwrites empty_world "nap.wav" 2147483648 22050
                                [x01; x02] [x03]).
  - apply empty_world_writable.
  - reflexivity.
  - lia.
  - cbn. lia.
Defined.

Lemma wav_file_determines_inputs_witness :
  44100 = 44100 /\ [x01; x02] = [x01; x02].
Proof.
  apply (wav_file_determines_inputs empty_world (World ∅ [] ∅ (Some 20%nat) [])
                                    "a.wav" "b.wav"
                                    44100 44100 [x01; x02] [x01; x02]).
  - vm_compute. reflexivity.
  - vm_compute. reflexivity.
  - vm_compute. reflexivity.
Defined.

Lemma reply_ok_payload : audioContent_of reply_ok = Some (JStr "AAEC").
Proof. vm_compute. reflexivity. Defined.

Lemma exit_0_means_complete_file_witness :
  exists (r : response) (s : string) (pcm : list byte),
    reply "k" (net_of (inr reply_ok)) (argv_text ["generate_wav.py"; "hi"; "o.wav"])
          44100 = inr r
    /\ status_code r = 200
    /\ audioContent_of r = Some (JStr s)
    /\ b64_example s = inr pcm
    /\ fs (snd (main "k" (net_of (inr reply_ok)) b64_example
                     ["generate_wav.py"; "hi"; "o.wav"] empty_world))
         !! argv_output_file ["generate_wav.py"; "hi"; "o.wav"]
       = Some (wav_image 44100 pcm).
Proof.
  apply (exit_0_means_complete_file "k" (net_of (inr reply_ok)) b64_example
           ["generate_wav.py"; "hi"; "o.wav"] empty_world).
  vm_compute. reflexivity.
Defined.

Lemma reply_number_payload : audioContent_of reply_number = Some (JNum "7").
Proof. vm_compute. reflexivity. Defined.

Lemma payload_not_a_string_witness :
  fst (generate_wav "k" (net_of (inr reply_number)) b64_example
                    (argv_text ["generate_wav.py"])
                    (argv_output_file ["generate_wav.py"]) 44100 empty_world)
  = inl TypeError
  /\ fst (main "k" (net_of (inr reply_number)) b64_example ["generate_wav.py"]
               empty_world) = 1
  /\ fs (snd (main "k" (net_of (inr reply_number)) b64_example
                   ["generate_wav.py"] empty_world)) = fs empty_world
  /\ trace (snd (main "k" (net_of (inr reply_number)) b64_example
                      ["generate_wav.py"] empty_world))
     = EvB64decode :: EvJson :: EvPost :: trace empty_world.
Proof.
  apply (payload_not_a_string "k" (net_of (inr reply_number)) b64_example
           ["generate_wav.py"] empty_world reply_number (JNum "7")).
  - reflexivity.
  - reflexivity.
  - exact reply_number_payload.
  - intros s. discriminate.
Defined.

Lemma reply_not_base64_payload :
  audioContent_of reply_not_base64 = Some (JStr "%").
Proof. vm_compute. reflexivity. Defined.

Lemma payload_not_base64_witness :
  fst (generate_wav "k" (net_of (inr reply_not_base64)) b64_example
                    (argv_text ["generate_wav.py"])
                    (argv_output_file ["generate_wav.py"]) 44100 empty_world)
  = inl BinasciiError
  /\ fst (main "k" (net_of (inr reply_not_base64)) b64_example
               ["generate_wav.py"] empty_world) = 1
  /\ fs (snd (main "k" (net_of (inr reply_not_base64)) b64_example
                   ["generate_wav.py"] empty_world)) = fs empty_world
  /\ trace (snd (main "k" (net_of (inr reply_not_base64)) b64_example
                      ["generate_wav.py"] empty_world))
     = EvB64decode :: EvJson :: EvPost :: trace empty_world.
Proof.
  apply (payload_not_base64 "k" (net_of (inr reply_not_base64)) b64_example
           ["generate_wav.py"] empty_world reply_not_base64 "%" BinasciiError).
  - reflexivity.
  - reflexivity.
  - exact reply_not_base64_payload.
  - reflexivity.
Defined.

Lemma membership_passes_subscript_raises_witness :
  fst (generate_wav "k" (net_of (inr reply_array)) b64_example
                    (argv_text ["generate_wav.py"])
                    (argv_output_file ["generate_wav.py"]) 44100 empty_world)
  = inl TypeError
  /\ fst (main "k" (net_of (inr reply_array)) b64_example ["generate_wav.py"]
               empty_world) = 1
  /\ fs (snd (main "k" (net_of (inr reply_array)) b64_example
                   ["generate_wav.py"] empty_world)) = fs empty_world.
Proof.
  apply (membership_passes_subscript_raises "k" (net_of (inr reply_array))
           b64_example ["generate_wav.py"] empty_world reply_array).
  - reflexivity.
  - reflexivity.
  - left. exists [JStr "audioContent"]. split; [reflexivity|]. left. reflexivity.
Defined.

Lemma output_path_refused_witness :
  fst (generate_wav "k" (net_of (inr reply_ok)) b64_example
                    (argv_text ["generate_wav.py"])
                    (argv_output_file ["generate_wav.py"]) 44100 readonly_world)
  = inl OSError
  /\ fst (main "k" (net_of (inr reply_ok)) b64_example ["generate_wav.py"]
               readonly_world) = 1
  /\ fs (snd (main "k" (net_of (inr reply_ok)) b64_example ["generate_wav.py"]
                   readonly_world)) = fs readonly_world
  /\ open_files (snd (main "k" (net_of (inr reply_ok)) b64_example
                           ["generate_wav.py"] readonly_world))
     = open_files readonly_world.
Proof.
  apply (output_path_refused "k" (net_of (inr reply_ok)) b64_example
           ["generate_wav.py"] readonly_world reply_ok "AAEC" [x00; x01; x02]).
  - reflexivity.
  - reflexivity.
  - exact reply_ok_payload.
  - reflexivity.
  - cbn. apply elem_of_singleton. reflexivity.
Defined.

Lemma generate_wav_one_request_witness :
  generate_wav "k" (net_of (inr reply_ok)) b64_example "Nap home" "o.wav" 44100
               empty_world
  = generate_wav "k" (net_timeout_15 reply_ok) b64_example "Nap home" "o.wav" 44100
                 empty_world.
Proof.
  apply (generate_wav_one_request "k" (net_of (inr reply_ok))
           (net_timeout_15 reply_ok) b64_example "Nap home" "o.wav" 44100
           empty_world).
  reflexivity.
Defined.


(** * The write operation on every exit path *)






(** The three partial files of C7, byte for byte: four bytes, the first
    seven fields (24 bytes) and the first eight (28 bytes). *)
Lemma partial_files_sizes (sample_rate : Z) (pcm : list byte) :
  length (concat (take 1 (wav_fields sample_rate pcm))) = 4%nat
  /\ length (concat (take 7 (wav_fields sample_rate pcm))) = 24%nat
  /\ length (concat (take 8 (wav_fields sample_rate pcm))) = 28%nat.
Proof. repeat split. Qed.
